(** * Pizza Bot: the pricing function and the order-negotiation loop

    A shallow embedding of [main.py]: the pricing function [order_pizza],
    the name extraction, and the control loop of [main], followed by the
    properties of the design document that concern them.

    Conventions of the embedding.
    - A Python [str] is a [string]; a character stands for the code point
      of the same number (0 to 255), and [str.lower], [str.strip] are the
      Python ones restricted to that range.
    - A Python [float] that the program computes is a [Q].  Every float of
      the program is [b + 0.75 * n + 0.5 * m] for integers [b], [n], [m]
      (or a sum of such), a multiple of 1/4; below 2^51 these are binary64
      values and their sums and products are exact, so the arithmetic of the
      program coincides with the arithmetic of [Q] for every list that fits
      in memory.  [round(x, 2)] is modelled on the exact value.
    - A value decoded by [json.loads] is a [json]; a decoded object is a
      Python [dict], here a [gmap] from keys to values.
    - [json.loads], [json.dumps] and the completion API are external: the
      decoder and the encoder are parameters of the development, and the
      answers of the API and of the console are the events that drive the
      loop. *)

From Stdlib Require Import Ascii QArith Qround Qcanon Lqa Floats Uint63.
From stdpp Require Import gmap strings pretty list fin_maps.

Local Open Scope string_scope.
Local Open Scope list_scope.
Local Open Scope Q_scope.
#[local] Set Warnings "-register-all".

(** ** Python strings *)

Module PyStr.

Definition code (c : ascii) : N := Ascii.N_of_ascii c.

(** [str.isspace] on one character below 256. *)
Definition isspace (c : ascii) : bool :=
  let n := code c in
  ((9 <=? n) && (n <=? 13) || (28 <=? n) && (n <=? 32)
   || (n =? 133) || (n =? 160))%N.

(** [str.isupper] on one character below 256: A-Z, and the Latin-1
    capitals 0xC0-0xDE except the multiplication sign 0xD7. *)
Definition isupper (c : ascii) : bool :=
  let n := code c in
  ((65 <=? n) && (n <=? 90)
   || (192 <=? n) && (n <=? 222) && negb (n =? 215))%N.

Definition lower_char (c : ascii) : ascii :=
  if isupper c then Ascii.ascii_of_N (code c + 32) else c.

(** [s.lower()] *)
Fixpoint lower (s : string) : string :=
  match s with
  | EmptyString => EmptyString
  | String c r => String (lower_char c) (lower r)
  end.

Fixpoint lstrip (s : string) : string :=
  match s with
  | EmptyString => EmptyString
  | String c r => if isspace c then lstrip r else s
  end.

Fixpoint rstrip (s : string) : string :=
  match s with
  | EmptyString => EmptyString
  | String c r =>
      match rstrip r with
      | EmptyString => if isspace c then EmptyString else String c EmptyString
      | r' => String c r'
      end
  end.

(** [s.strip()] *)
Definition strip (s : string) : string := rstrip (lstrip s).

(** Truth value of a string: [if s:] *)
Definition truthy (s : string) : bool :=
  match s with EmptyString => false | _ => true end.

End PyStr.

(** ** Values decoded from JSON *)

Inductive json : Type :=
| JNull
| JBool (b : bool)
| JNum (q : Q)
| JStr (s : string)
| JArr (l : list json)
| JObj (d : gmap string json).

(** ** Exceptions

    The exceptions a run of [main] can meet, and the monad of computations
    that return or raise. *)

Inductive exn : Type :=
| TypeError
| AttributeError
| EOFError
| JSONDecodeError
| RecursionError
| ValueError
| APIError (e : string)
| RuntimeError (cause : exn).

Inductive py (A : Type) : Type :=
| Ret (a : A)
| Raise (e : exn).
Arguments Ret {A} a.
Arguments Raise {A} e.

#[export] Instance py_ret : MRet py := fun _ a => Ret a.
#[export] Instance py_bind : MBind py := fun _ _ k c =>
  match c with
  | Ret a => k a
  | Raise e => Raise e
  end.

(** ** Floats

    The floats of the program as canonical rationals (see the conventions
    above): every operation reduces its result, so two equal floats are the
    same term. *)

Module PyFloat.

Definition of_int (z : Z) : Q := inject_Z z.
Definition add (x y : Q) : Q := Qred (x + y).
Definition mul (x y : Q) : Q := Qred (x * y).

(** Rounding to the nearest integer, ties to the even one. *)
Definition round_half_even (x : Q) : Z :=
  let f := Qfloor x in
  match ((x - inject_Z f) ?= (1 # 2))%Q with
  | Lt => f
  | Gt => (f + 1)%Z
  | Eq => if Z.even f then f else (f + 1)%Z
  end.

(** [round(x, ndigits)] on the exact value of [x]. *)
Definition round (x : Q) (ndigits : nat) : Q :=
  let scale := inject_Z (10 ^ Z.of_nat ndigits) in
  Qred (inject_Z (round_half_even (x * scale)) / scale).

End PyFloat.

(** ** The pricing function *)

Module Pricing.

(** [len(v)]: defined on strings, lists and dicts. *)
Definition len (v : json) : py nat :=
  match v with
  | JStr s => Ret (String.length s)
  | JArr l => Ret (length l)
  | JObj d => Ret (size d)
  | JNull | JBool _ | JNum _ => Raise TypeError
  end.

(** [v.lower()]: only a string has the attribute. *)
Definition call_lower (v : json) : py string :=
  match v with
  | JStr s => Ret (PyStr.lower s)
  | _ => Raise AttributeError
  end.

Record order : Type := Order {
  o_size : json;
  o_crust : json;
  o_toppings : json;
  o_sauces : json;
  o_price : Q
}.

Record result : Type := Result {
  status : string;
  r_order : order;
  eta : string
}.

Definition base_price : gmap string Z :=
  {[ "small" := 5; "medium" := 7; "large" := 9; "extra large" := 11 ]}%Z.

Definition of_len (n : nat) : Q := PyFloat.of_int (Z.of_nat n).

(** The price before rounding, as lines 44-45 compute it from the base
    price and the two lengths. *)
Definition raw_price (base : Z) (n_toppings n_sauces : nat) : Q :=
  PyFloat.add (PyFloat.of_int base)
    (PyFloat.add (PyFloat.mul (3 # 4) (of_len n_toppings))
                 (PyFloat.mul (1 # 2) (of_len n_sauces))).

(** [order_pizza(size, crust, toppings, sauces)], lines 42-56. *)
Definition order_pizza (size crust toppings sauces : json) : py result :=
  key ← call_lower size;
  let price := PyFloat.of_int (default 7%Z (base_price !! key)) in
  n_toppings ← len toppings;
  n_sauces ← len sauces;
  let price :=
    PyFloat.add price
      (PyFloat.add (PyFloat.mul (3 # 4) (of_len n_toppings))
                   (PyFloat.mul (1 # 2) (of_len n_sauces))) in
  mret {| status := "success";
          r_order := {| o_size := size;
                        o_crust := crust;
                        o_toppings := toppings;
                        o_sauces := sauces;
                        o_price := PyFloat.round price 2 |};
          eta := "20 minutes" |}.

(** The call with arguments of the declared types. *)
Definition strs (l : list string) : json := JArr (JStr <$> l).

Definition order_pizza_typed (size crust : string) (toppings sauces : list string)
  : py result :=
  order_pizza (JStr size) (JStr crust) (strs toppings) (strs sauces).

End Pricing.

Import Pricing.

(** ** The same arithmetic in binary64

    The price expression of line 44-45 evaluated with the kernel's IEEE 754
    binary64 numbers, to compare with the rational model. *)

Module Binary64.

Definition to_Q (f : float) : option Q :=
  match Prim2SF f with
  | S754_zero _ => Some 0
  | S754_finite s m e =>
      let v := inject_Z (Zpos m) * 2 ^ e in
      Some (if s then - v else v)
  | S754_infinity _ | S754_nan => None
  end.

Definition of_int (z : Z) : float := PrimFloat.of_uint63 (Uint63.of_Z z).

Definition price (base : Z) (n_toppings n_sauces : nat) : float :=
  (of_int base
   + (0.75 * of_int (Z.of_nat n_toppings) + 0.5 * of_int (Z.of_nat n_sauces)))%float.

Definition agree (base : Z) (n_toppings n_sauces : nat) : bool :=
  match to_Q (price base n_toppings n_sauces) with
  | Some q => Qeq_bool q (raw_price base n_toppings n_sauces)
  | None => false
  end.

End Binary64.

(** ** The session *)

(** The transcript. *)
Inductive message : Type :=
| System (content : string)
| User (content : string)
| Assistant (content : string)
| Function (name content : string).

(** [msg.function_call] and [msg] of the first choice of a completion. *)
Record function_call : Type := FunctionCall {
  fc_name : string;
  fc_arguments : string
}.

Record response : Type := Response {
  msg_content : option string;
  msg_function_call : option function_call
}.

(** What the environment answers: a line typed at a prompt or the end of
    the input, and a completion or an error of the API. *)
Inductive event : Type :=
| Line (s : string)
| Eof
| Reply (r : response)
| ApiError (e : string).

(** The lines [main] prints. *)
Inductive output : Type :=
| OutWelcome
| OutNoName
| OutNameError (e : exn)
| OutProceeding (name : string)
| OutUsingRaw (name : string)
| OutHi (name : string)
| OutChatError (e : exn)
| OutAI (content : string)
| OutParseFailed
| OutOrderPlaced (eta : string)
| OutPrice (price : Q)
| OutSummaryHeader
| OutPizza (i : nat) (size crust : json)
| OutToppings (toppings : json)
| OutSauces (sauces : json)
| OutItemPrice (price : Q)
| OutTotal (total : Q)
| OutThanks.

(** Where [main] is blocked or has ended. *)
Inductive location : Type :=
| AskingName             (* line 92: input("Tell me your name: ") *)
| ExtractingName         (* line 77: the completion call of extract_name *)
| AwaitingUserInput      (* line 119: input at the top of the outer loop *)
| AwaitingModelResponse  (* line 126: the completion call of the inner loop *)
| AwaitingNextUserInput  (* line 161: input at the bottom of the inner loop *)
| AskingAnother          (* line 166: input("... order another pizza?") *)
| Finished               (* line 178: the summary is printed, main returns *)
| ExitedNoName           (* line 95: return *)
| AbortedOnApiError      (* line 134: return *)
| Crashed (e : exn).     (* an uncaught exception left main *)

(** The variables of [main] and the console.  A variable that is not yet
    bound holds a value that is never read. *)
Record state : Type := State {
  pc : location;
  raw_name_input : string;
  name : string;
  messages : list message;
  orders : list order;
  total : Q;
  stdout : list output
}.

Definition goto (l : location) (st : state) : state :=
  State l (raw_name_input st) (name st) (messages st) (orders st) (total st) (stdout st).

Definition print (o : output) (st : state) : state :=
  State (pc st) (raw_name_input st) (name st) (messages st) (orders st) (total st)
        (stdout st ++ [o]).

Definition set_name (n : string) (st : state) : state :=
  State (pc st) (raw_name_input st) n (messages st) (orders st) (total st) (stdout st).

Definition append_message (m : message) (st : state) : state :=
  State (pc st) (raw_name_input st) (name st) (messages st ++ [m]) (orders st) (total st)
        (stdout st).

Definition record_order (o : order) (st : state) : state :=
  State (pc st) (raw_name_input st) (name st) (messages st) (orders st ++ [o])
        (PyFloat.add (total st) (o_price o)) (stdout st).

Definition system_prompt : string :=
  "You are a helpful pizza-ordering assistant. Ask the user questions and place their order by calling 'order_pizza' function when ready.".

Definition initial : state :=
  State AskingName "" "" [] [] 0 [OutWelcome].

(** Lines 92-95: the line typed at the first prompt. *)
Definition ask_name (s : string) (st : state) : state :=
  let raw := PyStr.strip s in
  let st := State (pc st) raw (name st) (messages st) (orders st) (total st) (stdout st) in
  if PyStr.truthy raw then goto ExtractingName st
  else goto ExitedNoName (print OutNoName st).

(** [extract_name(user_text)], lines 74-87, given the answer of its call. *)
Definition extract_name (api : py response) : py string :=
  match api with
  | Raise e => Raise (RuntimeError e)
  | Ret resp =>
      match msg_content resp with
      | Some content => Ret (PyStr.strip content)
      | None => Raise AttributeError
      end
  end.

(** Lines 97-116, from the answer of the name extraction to the loop. *)
Definition greet (api : py response) (st : state) : state :=
  let raw := raw_name_input st in
  let st :=
    match extract_name api with
    | Ret n => set_name n st
    | Raise e => print (OutProceeding raw) (set_name raw (print (OutNameError e) st))
    end in
  let st :=
    if PyStr.truthy (name st) then st
    else print (OutUsingRaw raw) (set_name raw st) in
  let st := print (OutHi (name st)) st in
  State AwaitingUserInput (raw_name_input st) (name st) [System system_prompt] [] 0
        (stdout st).

(** The call of line 149, [order_pizza] applied to the unpacked [args]: the
    keys of [args] are bound to the four parameters, none of which has a
    default. *)
Definition parameters : list string := ["size"; "crust"; "toppings"; "sauces"].

Definition argument (kwargs : gmap string json) (p : string) : py json :=
  match kwargs !! p with
  | Some v => Ret v
  | None => Raise TypeError
  end.

Definition call_order_pizza (args : json) : py result :=
  match args with
  | JObj kwargs =>
      if bool_decide (dom kwargs ⊆ list_to_set parameters)
      then
        size ← argument kwargs "size";
        crust ← argument kwargs "crust";
        toppings ← argument kwargs "toppings";
        sauces ← argument kwargs "sauces";
        order_pizza size crust toppings sauces
      else Raise TypeError
  | _ => Raise TypeError
  end.

(** [', '.join(v)] returns: [v] is iterable and yields strings. *)
Definition joinable (v : json) : bool :=
  match v with
  | JStr _ | JObj _ => true
  | JArr l => forallb (fun x => match x with JStr _ => true | _ => false end) l
  | JNull | JBool _ | JNum _ => false
  end.

(** Lines 171-175: the itemized part of the summary. *)
Fixpoint print_orders (i : nat) (os : list order) : list output * option exn :=
  match os with
  | [] => ([], None)
  | o :: rest =>
      let pizza := OutPizza i (o_size o) (o_crust o) in
      if negb (joinable (o_toppings o)) then ([pizza], Some TypeError)
      else if negb (joinable (o_sauces o))
      then ([pizza; OutToppings (o_toppings o)], Some TypeError)
      else
        let '(out, e) := print_orders (S i) rest in
        (pizza :: OutToppings (o_toppings o) :: OutSauces (o_sauces o)
           :: OutItemPrice (o_price o) :: out, e)
  end.

(** Lines 170-178: the summary, after the outer loop. *)
Definition session_end (st : state) : state :=
  let '(out, e) := print_orders 1 (orders st) in
  let st := State (pc st) (raw_name_input st) (name st) (messages st) (orders st)
                  (total st) (stdout st ++ OutSummaryHeader :: out) in
  match e with
  | Some ex => goto (Crashed ex) st
  | None => goto Finished (print OutThanks (print (OutTotal (total st)) st))
  end.

(** ** The design document's reading of the price

    Definitions that follow the words of the design document, to compare
    with [order_pizza]. *)

Module Spec.

(** [c] is the letter [k] of a size name, in lower or in upper case. *)
Definition same_letter (c k : ascii) : bool :=
  ((PyStr.code c =? PyStr.code k)
   || (97 <=? PyStr.code k) && (PyStr.code k <=? 122)
      && (PyStr.code c + 32 =? PyStr.code k))%N.

(** [s] is the size name [key] up to letter case. *)
Fixpoint same_word (s key : string) : bool :=
  match s, key with
  | EmptyString, EmptyString => true
  | String c s, String k key => same_letter c k && same_word s key
  | _, _ => false
  end.

(** Case-insensitive lookup in small:5, medium:7, large:9,
    extra large:11, 7 for any other size. *)
Definition base_price (size : string) : Z :=
  if same_word size "small" then 5
  else if same_word size "medium" then 7
  else if same_word size "large" then 9
  else if same_word size "extra large" then 11
  else 7.

(** base_price(size) + 0.75 * |toppings| + 0.5 * |sauces| *)
Definition price (size : string) (toppings sauces : list string) : Q :=
  inject_Z (base_price size)
  + (3 # 4) * inject_Z (Z.of_nat (length toppings))
  + (1 # 2) * inject_Z (Z.of_nat (length sauces)).

(** The characters of the size names: below 128 and not capitals. *)
Definition key_char (k : ascii) : Prop :=
  (PyStr.code k < 128)%N /\ PyStr.isupper k = false.

(** The prices the console announced, one per "Order placed". *)
Definition announced (out : list output) : list Q :=
  omap (fun o => match o with OutPrice p => Some p | _ => None end) out.

(** The exact sum of the prices of a list of orders. *)
Definition sum_prices (os : list order) : Q :=
  foldr (fun o acc => o_price o + acc) 0 os.

(** The running total is the exact sum of the recorded prices. *)
Definition totals_ok (st : state) : Prop :=
  total st == sum_prices (orders st).

End Spec.

(** The two functions of the [json] module that [main] calls: [json.loads]
    on the arguments of the action call and [json.dumps] on the result of
    [order_pizza].  Either returns or raises: [json.loads] raises
    [JSONDecodeError] on a text that is not JSON, and also [RecursionError]
    on a text nested too deep and [ValueError] on a number with too many
    digits; [json.dumps] raises [RecursionError] on a value nested too
    deep. *)
Class JsonModule : Type := {
  json_loads : string -> py json;
  json_dumps : result -> py string
}.

Section Session.

Context {json_module : JsonModule}.

(** Lines 119-122 and 161-164: a line typed at a [name: ] prompt. *)
Definition user_turn (s : string) (empty : location) (st : state) : state :=
  let user_msg := PyStr.strip s in
  if PyStr.truthy user_msg
  then goto AwaitingModelResponse (append_message (User user_msg) st)
  else goto empty st.

(** Lines 139-141: the text of the answer. *)
Definition handle_text (msg : response) (st : state) : state :=
  match msg_content msg with
  | Some content =>
      if PyStr.truthy content
      then append_message (Assistant content) (print (OutAI content) st)
      else st
  | None => st
  end.

(** Lines 143-159: the action call of the answer.  The handler of line
    146 catches [JSONDecodeError] and nothing else; an exception of
    [json.dumps] at line 157 leaves [main] after the order is recorded. *)
Definition handle_function_call (fc : function_call) (st : state) : state :=
  match json_loads (fc_arguments fc) with
  | Raise JSONDecodeError => goto AskingAnother (print OutParseFailed st)
  | Raise e => goto (Crashed e) st
  | Ret args =>
      match call_order_pizza args with
      | Raise e => goto (Crashed e) st
      | Ret result =>
          let st := print (OutOrderPlaced (eta result)) st in
          let st := print (OutPrice (o_price (r_order result))) st in
          let st := record_order (r_order result) st in
          match json_dumps result with
          | Raise e => goto (Crashed e) st
          | Ret content =>
              goto AskingAnother (append_message (Function "order_pizza" content) st)
          end
      end
  end.

(** Lines 125-159: the answer of the completion call of the inner loop. *)
Definition model_turn (api : py response) (st : state) : state :=
  match api with
  | Raise e => goto AbortedOnApiError (print (OutChatError e) st)
  | Ret msg =>
      let st := handle_text msg st in
      match msg_function_call msg with
      | Some fc => handle_function_call fc st
      | None => goto AwaitingNextUserInput st
      end
  end.

(** Lines 166-168. *)
Definition another (s : string) (st : state) : state :=
  let cont := PyStr.lower (PyStr.strip s) in
  if String.eqb cont "yes" then goto AwaitingUserInput st else session_end st.

(** One step of [main]: from the point where it is blocked, on the answer
    of the environment, to the next point where it is blocked or ends.
    [None] when the answer is not one the blocked call can get, and at
    the end. *)
Definition step (st : state) (e : event) : option state :=
  match pc st, e with
  | AskingName, Line s => Some (ask_name s st)
  | ExtractingName, Reply r => Some (greet (Ret r) st)
  | ExtractingName, ApiError err => Some (greet (Raise (APIError err)) st)
  | AwaitingUserInput, Line s => Some (user_turn s AwaitingUserInput st)
  | AwaitingModelResponse, Reply r => Some (model_turn (Ret r) st)
  | AwaitingModelResponse, ApiError err => Some (model_turn (Raise (APIError err)) st)
  | AwaitingNextUserInput, Line s => Some (user_turn s AwaitingModelResponse st)
  | AskingAnother, Line s => Some (another s st)
  | (AskingName | AwaitingUserInput | AwaitingNextUserInput | AskingAnother), Eof =>
      Some (goto (Crashed EOFError) st)
  | _, _ => None
  end.

(** A session: the answers of the environment, in order. *)
Fixpoint run (st : state) (es : list event) : option state :=
  match es with
  | [] => Some st
  | e :: es => st' ← step st e; run st' es
  end.

(** The order a step places, if any: the answer of the model carries an
    action call whose arguments decode and bind. *)
Definition placed (st : state) (e : event) : option order :=
  match pc st, e with
  | AwaitingModelResponse, Reply msg =>
      fc ← msg_function_call msg;
      match json_loads (fc_arguments fc) with
      | Ret args =>
          match call_order_pizza args with
          | Ret result => Some (r_order result)
          | Raise _ => None
          end
      | Raise _ => None
      end
  | _, _ => None
  end.

Fixpoint placed_along (st : state) (es : list event) : list order :=
  match es with
  | [] => []
  | e :: es =>
      match step st e with
      | Some st' => option_list (placed st e) ++ placed_along st' es
      | None => []
      end
  end.

End Session.

(** The points of the two loops, lines 118-168. *)
Definition in_loop (l : location) : bool :=
  match l with
  | AwaitingUserInput | AwaitingModelResponse | AwaitingNextUserInput | AskingAnother => true
  | _ => false
  end.

(** The points where [main] is blocked on the environment. *)
Definition blocked (l : location) : bool :=
  match l with
  | AskingName | ExtractingName => true
  | l => in_loop l
  end.

Definition before_loop (l : location) : bool :=
  match l with
  | AskingName | ExtractingName => true
  | _ => false
  end.

(** Before the loop no order is recorded. *)
Definition fresh (st : state) : Prop :=
  before_loop (pc st) = true ->
  orders st = [] /\ total st = 0 /\ Spec.announced (stdout st) = [].

(** An order that the summary can print: [join] accepts its toppings and
    its sauces. *)
Definition printable (o : order) : bool :=
  joinable (o_toppings o) && joinable (o_sauces o).

(** What each piece of [main] leaves alone.  [quiet st st'] says that
    [st'] has the orders, the total and the announcements of [st], and a
    summary on the console only if [st] has one. *)
Definition quiet (st st' : state) : Prop :=
  orders st' = orders st
  /\ total st' = total st
  /\ Spec.announced (stdout st') = Spec.announced (stdout st)
  /\ (OutSummaryHeader ∈ stdout st' -> OutSummaryHeader ∈ stdout st).

(** The summary is on the console only when the outer loop was left. *)
Definition summary_only_at_end (st : state) : Prop :=
  OutSummaryHeader ∈ stdout st -> blocked (pc st) = false.

(** ** A concrete environment

    A decoder given by a finite table of payloads and an encoder that
    renders the price in hundredths, to run sessions. *)

Module Demo.

Definition quote (s : string) : string :=
  String (ascii_of_nat 34) s +:+ String (ascii_of_nat 34) "".

(** The text of a JSON object with the given members. *)
Fixpoint members (kvs : list (string * string)) : string :=
  match kvs with
  | [] => ""
  | [(k, v)] => quote k +:+ ": " +:+ v
  | (k, v) :: rest => quote k +:+ ": " +:+ v +:+ ", " +:+ members rest
  end.

Definition object (kvs : list (string * string)) : string :=
  "{" +:+ members kvs +:+ "}".

Definition large_thin : string :=
  object [("size", quote "Large"); ("crust", quote "thin");
          ("toppings", "[" +:+ quote "pepperoni" +:+ ", " +:+ quote "olives" +:+ "]");
          ("sauces", "[" +:+ quote "marinara" +:+ "]")].

Definition small_plain : string :=
  object [("size", quote "small"); ("crust", quote "pan");
          ("toppings", "[]"); ("sauces", "[]")].

Definition no_crust : string :=
  object [("size", quote "small"); ("toppings", "[]"); ("sauces", "[]")].

Definition with_note : string :=
  object [("size", quote "small"); ("crust", quote "pan");
          ("toppings", "[]"); ("sauces", "[]"); ("note", quote "ring the bell")].

Definition truncated : string := "{" +:+ quote "size" +:+ ": ".

Definition table : list (string * json) :=
  [ (large_thin,
     JObj {[ "size" := JStr "Large"; "crust" := JStr "thin";
             "toppings" := strs ["pepperoni"; "olives"];
             "sauces" := strs ["marinara"] ]});
    (small_plain,
     JObj {[ "size" := JStr "small"; "crust" := JStr "pan";
             "toppings" := strs []; "sauces" := strs [] ]});
    (no_crust,
     JObj {[ "size" := JStr "small"; "toppings" := strs []; "sauces" := strs [] ]});
    (with_note,
     JObj {[ "size" := JStr "small"; "crust" := JStr "pan";
             "toppings" := strs []; "sauces" := strs [];
             "note" := JStr "ring the bell" ]}) ].

Definition loads (s : string) : py json :=
  match find (fun kv => String.eqb (fst kv) s) table with
  | Some kv => Ret (snd kv)
  | None => Raise JSONDecodeError
  end.

Definition dumps (r : result) : py string :=
  Ret ("price in hundredths: " +:+
       pretty (PyFloat.round_half_even (o_price (r_order r) * 100))).

#[export] Instance json_module : JsonModule :=
  {| json_loads := loads; json_dumps := dumps |}.

Definition text (s : string) : response := Response (Some s) None.
Definition call (arguments : string) : response :=
  Response None (Some (FunctionCall "order_pizza" arguments)).

(** Up to the first completion call of the negotiation. *)
Definition opening : list event :=
  [ Line "I am Ada"; Reply (text "Ada"); Line "a small pan pizza" ].

Definition negotiating : state := default initial (run initial opening).

(** Up to a prompt of the inner loop, after the model answered in text. *)
Definition asked_size : list event := opening ++ [ Reply (text "Which size?") ].

Definition answering : state := default initial (run initial asked_size).

(** Up to the "order another?" prompt. *)
Definition one_pizza : list event := opening ++ [ Reply (call small_plain) ].

Definition served : state := default initial (run initial one_pizza).

(** Two pizzas, with an unreadable action call in between. *)
Definition two_pizzas : list event :=
  [ Line "I am Ada"; Reply (text "Ada");
    Line "a large thin one"; Reply (text "Which toppings?");
    Line "pepperoni and olives, marinara"; Reply (call large_thin);
    Line " Yes ";
    Line "and a small one"; Reply (call truncated);
    Line "YES";
    Line ""; Line "a small pan pizza"; Reply (call small_plain);
    Line "no" ].

End Demo.

(** ** Notions for the properties of the code *)

(** [v] is a string, the only value with the method [lower]. *)
Definition is_str (v : json) : bool :=
  match v with JStr _ => true | _ => false end.

(** [len(v)] returns: [v] is a string, a list or a dict. *)
Definition has_len (v : json) : bool :=
  match v with JStr _ | JArr _ | JObj _ => true | _ => false end.

(** The decoded arguments with which the call of line 149 returns: an
    object that has the four parameters as its keys and no other, whose
    size is a string and whose toppings and sauces have a length. *)
Definition well_formed (args : json) : bool :=
  match args with
  | JObj kwargs =>
      bool_decide (dom kwargs = list_to_set parameters)
      && from_option is_str false (kwargs !! "size")
      && from_option has_len false (kwargs !! "toppings")
      && from_option has_len false (kwargs !! "sauces")
  | _ => false
  end.

(** A price of the menu: a number of quarters, at least five units. *)
Definition menu_price (p : Q) : Prop :=
  exists k : Z, p == k # 4 /\ (20 <= k)%Z.

(** The item prices that the summary printed. *)
Definition billed (out : list output) : list Q :=
  omap (fun o => match o with OutItemPrice p => Some p | _ => None end) out.

(** What the loop puts in the transcript for the user and the assistant:
    a user message is not empty and has no white space around it, an
    assistant message is not empty. *)
Definition spoken (m : message) : Prop :=
  match m with
  | User content => content <> "" /\ PyStr.strip content = content
  | Assistant content => content <> ""
  | System _ | Function _ _ => True
  end.

(** What holds of the name and of the transcript at every point: the
    transcript is as [spoken] says, the raw input is not empty and trimmed
    once it is read, and in the loop so is the name, and the transcript
    starts with the system prompt. *)
Definition named (st : state) : Prop :=
  Forall spoken (messages st)
  /\ (pc st = ExtractingName ->
      raw_name_input st <> "" /\ PyStr.strip (raw_name_input st) = raw_name_input st)
  /\ (in_loop (pc st) = true ->
      name st <> "" /\ PyStr.strip (name st) = name st
      /\ exists rest, messages st = System system_prompt :: rest).


(** The prompts, where [main] is blocked in [input]. *)
Definition prompting (l : location) : bool :=
  match l with
  | AskingName | AwaitingUserInput | AwaitingNextUserInput | AskingAnother => true
  | _ => false
  end.

(** No white space at the left end. *)
Definition trimmed_left (s : string) : Prop :=
  match s with
  | String c _ => PyStr.isspace c = false
  | EmptyString => True
  end.

(** A recorded order whose toppings are numbers: the call of line 149
    accepts it, the summary cannot print it. *)
Definition numbered : order :=
  Order (JStr "small") (JStr "pan") (JArr [JNum 1; JNum 2]) (JArr []) (13 # 2).

(** A decoder that reads the same object from every payload, an order
    with numbers for toppings, to run a session that records it. *)
Module Odd.

Definition loads (s : string) : py json :=
  Ret (JObj {[ "size" := JStr "small"; "crust" := JStr "pan";
               "toppings" := JArr [JNum 1; JNum 2]; "sauces" := JArr [] ]}).

Definition json_module : JsonModule :=
  {| json_loads := loads; json_dumps := Demo.dumps |}.

Definition session : list event :=
  [ Line "Ada"; Reply (Demo.text "Ada"); Line "surprise me";
    Reply (Demo.call "{}"); Line "no" ].

End Odd.

(** The limits of the [json] module: a decoder that raises
    [RecursionError] on a text of two thousand opening brackets and
    [ValueError] on a number of five thousand digits, as [json.loads]
    does, and [JSONDecodeError] on every other text; and an encoder that
    raises [RecursionError], as [json.dumps] does on a result nested too
    deep. *)
Module Limits.

Definition brackets : string := String.string_of_list_ascii (replicate 2000 "["%char).

Definition digits : string := String.string_of_list_ascii (replicate 5000 "7"%char).

Definition loads (s : string) : py json :=
  if String.eqb s brackets then Raise RecursionError
  else if String.eqb s digits then Raise ValueError
  else Raise JSONDecodeError.

Definition json_module : JsonModule :=
  {| json_loads := loads; json_dumps := Demo.dumps |}.

(** The decoder of [Demo] with an encoder that gives up. *)
Definition deep_result : JsonModule :=
  {| json_loads := Demo.loads; json_dumps := fun _ => Raise RecursionError |}.

(** Up to the first completion call of the negotiation. *)
Definition negotiating : state :=
  default initial (run (json_module := json_module) initial Demo.opening).

End Limits.

(** * Properties *)

(** ** Floats *)

Lemma add_exact (x y : Q) : PyFloat.add x y == x + y.
Proof. apply Qred_correct. Qed.

Lemma mul_exact (x y : Q) : PyFloat.mul x y == x * y.
Proof. apply Qred_correct. Qed.

Lemma round_half_even_Z (x : Q) (k : Z) :
  x == inject_Z k -> PyFloat.round_half_even x = k.
Proof.
  intros Hx. unfold PyFloat.round_half_even.
  assert (Hf : Qfloor x = k) by (rewrite Hx; apply Qfloor_Z).
  rewrite Hf.
  assert (Hlt : x - inject_Z k < 1 # 2) by (rewrite Hx; lra).
  pose proof (proj1 (Qlt_alt (x - inject_Z k) (1 # 2)) Hlt) as Hc.
  cbv zeta. now rewrite Hc.
Qed.

(** A value with at most two decimals is its own rounding. *)
Lemma round_exact (x : Q) (k : Z) :
  x * 100 == inject_Z k -> PyFloat.round x 2 == x.
Proof.
  intros Hk. unfold PyFloat.round.
  change (inject_Z (10 ^ Z.of_nat 2)) with 100.
  rewrite Qred_correct, (round_half_even_Z _ k Hk), <- Hk. field.
Qed.

(** Equal values round to the same float. *)
Lemma round_comp (x y : Q) (n : nat) : x == y -> PyFloat.round x n = PyFloat.round y n.
Proof.
  intros Hxy. unfold PyFloat.round, PyFloat.round_half_even.
  apply Qred_complete. cbv zeta.
  assert (Hf : Qfloor (x * inject_Z (10 ^ Z.of_nat n)) = Qfloor (y * inject_Z (10 ^ Z.of_nat n)))
    by now rewrite Hxy.
  rewrite Hf.
  assert (Hc : (x * inject_Z (10 ^ Z.of_nat n)
                - inject_Z (Qfloor (y * inject_Z (10 ^ Z.of_nat n))) ?= 1 # 2)
             = (y * inject_Z (10 ^ Z.of_nat n)
                - inject_Z (Qfloor (y * inject_Z (10 ^ Z.of_nat n))) ?= 1 # 2))
    by now rewrite Hxy.
  rewrite Hc. reflexivity.
Qed.

(** The binary64 evaluation of the price agrees with the rational one on
    every base price of the table and up to 63 toppings and 63 sauces. *)
Example binary64_price_agrees :
  forallb (fun b =>
    forallb (fun t =>
      forallb (fun s => Binary64.agree b t s) (seq 0 64)) (seq 0 64)) [5; 7; 9; 11]%Z
  = true.
Proof. vm_compute. reflexivity. Qed.

(** ** Letter case *)

Lemma code_inj (c k : ascii) : PyStr.code c = PyStr.code k -> c = k.
Proof.
  unfold PyStr.code. intros H.
  rewrite <- (ascii_N_embedding c), <- (ascii_N_embedding k). now f_equal.
Qed.

Lemma lower_char_same_letter (c k : ascii) :
  Spec.key_char k -> PyStr.lower_char c = k <-> Spec.same_letter c k = true.
Proof.
  intros [Hk Hup].
  pose proof (N_ascii_bounded c) as Hc. fold (PyStr.code c) in Hc.
  unfold Spec.same_letter, PyStr.lower_char.
  rewrite !orb_true_iff, !andb_true_iff, !N.leb_le, !N.eqb_eq.
  destruct (PyStr.isupper c) eqn:Huc.
  - assert (Hr : (65 <= PyStr.code c <= 90 \/ 192 <= PyStr.code c <= 222)%N).
    { unfold PyStr.isupper in Huc. cbv zeta in Huc.
      rewrite orb_true_iff, !andb_true_iff, !N.leb_le in Huc. lia. }
    split.
    + intros <-.
      assert (He : PyStr.code (ascii_of_N (PyStr.code c + 32)) = (PyStr.code c + 32)%N)
        by (apply N_ascii_embedding; lia).
      rewrite He in *. lia.
    + intros [He | [[? ?] He]].
      * apply code_inj in He. subst k. congruence.
      * rewrite He. apply ascii_N_embedding.
  - split.
    + intros ->. now left.
    + intros [He | [[? ?] He]]; [now apply code_inj |].
      exfalso. unfold PyStr.isupper in Huc. cbv zeta in Huc.
      rewrite orb_false_iff, !andb_false_iff, !N.leb_gt in Huc. lia.
Qed.

Lemma lower_same_word (key s : string) :
  Forall Spec.key_char (String.list_ascii_of_string key) ->
  PyStr.lower s = key <-> Spec.same_word s key = true.
Proof.
  revert s. induction key as [| k key IH]; intros s Hkey.
  - destruct s; simpl; [tauto | split; discriminate].
  - apply Forall_cons in Hkey as [Hk Hkey].
    destruct s as [| c s]; simpl; [split; discriminate |].
    rewrite andb_true_iff, <- (IH s Hkey), <- (lower_char_same_letter c k Hk).
    split; [intros [= -> ->]; auto | intros [-> ->]; reflexivity].
Qed.

Ltac key_chars :=
  repeat (constructor; [split; [vm_compute; reflexivity | reflexivity] |]);
  constructor.

Lemma same_word_small s : PyStr.lower s = "small" <-> Spec.same_word s "small" = true.
Proof. apply lower_same_word. simpl. key_chars. Qed.

Lemma same_word_medium s : PyStr.lower s = "medium" <-> Spec.same_word s "medium" = true.
Proof. apply lower_same_word. simpl. key_chars. Qed.

Lemma same_word_large s : PyStr.lower s = "large" <-> Spec.same_word s "large" = true.
Proof. apply lower_same_word. simpl. key_chars. Qed.

Lemma same_word_extra_large s :
  PyStr.lower s = "extra large" <-> Spec.same_word s "extra large" = true.
Proof. apply lower_same_word. simpl. key_chars. Qed.

(** ** The pricing function *)

(** The dict lookup of line 44 is the case-insensitive lookup. *)
Lemma base_price_lookup (size : string) :
  default 7%Z (base_price !! PyStr.lower size) = Spec.base_price size.
Proof.
  unfold Spec.base_price.
  destruct (Spec.same_word size "small") eqn:H1.
  { apply same_word_small in H1. rewrite H1. reflexivity. }
  destruct (Spec.same_word size "medium") eqn:H2.
  { apply same_word_medium in H2. rewrite H2. reflexivity. }
  destruct (Spec.same_word size "large") eqn:H3.
  { apply same_word_large in H3. rewrite H3. reflexivity. }
  destruct (Spec.same_word size "extra large") eqn:H4.
  { apply same_word_extra_large in H4. rewrite H4. reflexivity. }
  assert (N1 : "small" <> PyStr.lower size)
    by (intros E; symmetry in E; apply same_word_small in E; congruence).
  assert (N2 : "medium" <> PyStr.lower size)
    by (intros E; symmetry in E; apply same_word_medium in E; congruence).
  assert (N3 : "large" <> PyStr.lower size)
    by (intros E; symmetry in E; apply same_word_large in E; congruence).
  assert (N4 : "extra large" <> PyStr.lower size)
    by (intros E; symmetry in E; apply same_word_extra_large in E; congruence).
  unfold base_price.
  rewrite !lookup_insert_ne, lookup_singleton_ne by assumption. reflexivity.
Qed.

Lemma len_strs (l : list string) : len (strs l) = Ret (length l).
Proof. unfold strs, len. now rewrite length_fmap. Qed.

Lemma raw_price_exact (base : Z) (n m : nat) :
  raw_price base n m
  == inject_Z base + (3 # 4) * inject_Z (Z.of_nat n) + (1 # 2) * inject_Z (Z.of_nat m).
Proof.
  unfold raw_price, of_len, PyFloat.of_int.
  rewrite !add_exact, !mul_exact. ring.
Qed.

(** The price is a multiple of a quarter, so rounding leaves it alone. *)
Lemma round_raw_price (base : Z) (n m : nat) :
  PyFloat.round (raw_price base n m) 2 == raw_price base n m.
Proof.
  apply (round_exact _ (100 * base + 75 * Z.of_nat n + 50 * Z.of_nat m)).
  rewrite raw_price_exact, !inject_Z_plus, !inject_Z_mult. field.
Qed.

Lemma order_pizza_unfold (size : string) (crust toppings sauces : json) (n m : nat) :
  len toppings = Ret n -> len sauces = Ret m ->
  order_pizza (JStr size) crust toppings sauces
  = Ret {| status := "success";
           r_order := {| o_size := JStr size;
                         o_crust := crust;
                         o_toppings := toppings;
                         o_sauces := sauces;
                         o_price :=
                           PyFloat.round
                             (raw_price (default 7%Z (base_price !! PyStr.lower size)) n m) 2 |};
           eta := "20 minutes" |}.
Proof. intros Hn Hm. unfold order_pizza. simpl. rewrite Hn, Hm. reflexivity. Qed.

Lemma order_pizza_typed_unfold (size crust : string) (toppings sauces : list string) :
  order_pizza_typed size crust toppings sauces
  = Ret {| status := "success";
           r_order := {| o_size := JStr size;
                         o_crust := JStr crust;
                         o_toppings := strs toppings;
                         o_sauces := strs sauces;
                         o_price :=
                           PyFloat.round
                             (raw_price (Spec.base_price size)
                                        (length toppings) (length sauces)) 2 |};
           eta := "20 minutes" |}.
Proof.
  unfold order_pizza_typed.
  rewrite (order_pizza_unfold size _ _ _ _ _ (len_strs toppings) (len_strs sauces)).
  now rewrite base_price_lookup.
Qed.

Lemma typed_price_exact (size : string) (toppings sauces : list string) :
  raw_price (Spec.base_price size) (length toppings) (length sauces)
  == Spec.price size toppings sauces.
Proof. unfold Spec.price. apply raw_price_exact. Qed.

(** A float equal to an integer is that integer. *)
Lemma round_is_int (x : Q) (n : nat) (k : Z) :
  PyFloat.round x n == inject_Z k -> PyFloat.round x n = inject_Z k.
Proof.
  unfold PyFloat.round. cbv zeta. intros H.
  rewrite Qred_correct in H. apply Qred_complete in H.
  rewrite H. unfold inject_Z. apply Qcanon.Qred_identity. simpl. apply Z.gcd_1_r.
Qed.

(** C1. For every size string, crust string and lists of topping and sauce
    strings, [order_pizza] returns status "success", ETA "20 minutes" and
    an order with the arguments and a price that is
    base_price(size) + 0.75 * |toppings| + 0.5 * |sauces| rounded to two
    decimals (which the rounding leaves unchanged), where base_price is
    the case-insensitive lookup with default 7; with no toppings and no
    sauces the four known sizes, in any letter case, cost 5, 7, 9, 11. *)
Theorem order_pizza_price (size crust : string) (toppings sauces : list string) :
  exists price : Q,
    order_pizza_typed size crust toppings sauces
    = Ret (Result "success"
             (Order (JStr size) (JStr crust) (strs toppings) (strs sauces) price)
             "20 minutes")
    /\ price = PyFloat.round (Spec.price size toppings sauces) 2
    /\ price == Spec.price size toppings sauces
    /\ (toppings = [] -> sauces = [] ->
        (Spec.same_word size "small" = true -> price = 5)
        /\ (Spec.same_word size "medium" = true -> price = 7)
        /\ (Spec.same_word size "large" = true -> price = 9)
        /\ (Spec.same_word size "extra large" = true -> price = 11)).
Proof.
  eexists. split; [apply order_pizza_typed_unfold |].
  split; [apply round_comp, typed_price_exact |].
  split; [rewrite round_raw_price; apply typed_price_exact |].
  intros -> ->.
  assert (Hp : forall key : string, PyStr.lower size = key ->
               PyFloat.round (raw_price (Spec.base_price size) 0 0) 2
               = inject_Z (default 7%Z (base_price !! key))).
  { intros key <-. apply round_is_int.
    rewrite round_raw_price, raw_price_exact, base_price_lookup. simpl. ring. }
  repeat split; intros Hw; simpl length.
  - apply same_word_small in Hw. apply (Hp _ Hw).
  - apply same_word_medium in Hw. apply (Hp _ Hw).
  - apply same_word_large in Hw. apply (Hp _ Hw).
  - apply same_word_extra_large in Hw. apply (Hp _ Hw).
Qed.

Lemma order_pizza_price_witness :
  order_pizza_typed "LaRgE" "deep dish" [] []
  = Ret (Result "success" (Order (JStr "LaRgE") (JStr "deep dish") (strs []) (strs []) 9)
           "20 minutes").
Proof.
  destruct (order_pizza_price "LaRgE" "deep dish" [] []) as (p & Hr & _ & _ & Hk).
  destruct (Hk eq_refl eq_refl) as (_ & _ & Hl & _).
  rewrite Hr, (Hl eq_refl). reflexivity.
Defined.

(** The examples of the design document. *)
Example small_thin_two_toppings :
  order_pizza_typed "small" "thin" ["pepperoni"; "olives"] ["marinara"]
  = Ret (Result "success"
           (Order (JStr "small") (JStr "thin") (strs ["pepperoni"; "olives"])
                  (strs ["marinara"]) 7)
           "20 minutes").
Proof. vm_compute. reflexivity. Qed.

Example unknown_size_costs_medium :
  o_price <$> (match order_pizza_typed "family" "thin" ["ham"] [] with
               | Ret r => Some (r_order r)
               | Raise _ => None
               end)
  = Some (31 # 4).
Proof. vm_compute. reflexivity. Qed.

(** Only the size has to be a string and only the toppings and sauces have
    to have a length: the crust and the items are never inspected. *)
Lemma order_pizza_returns (size : string) (crust : json) (toppings sauces : list json) :
  exists r, order_pizza (JStr size) crust (JArr toppings) (JArr sauces) = Ret r.
Proof. eexists. now apply order_pizza_unfold. Qed.

(** C8. [order_pizza] is total on arguments of the declared types: for
    every size string, crust string, topping list and sauce list it
    returns a result and raises no exception.  It is a function of its
    arguments alone, so it has no effect on the session and two calls
    with identical inputs return identical results. *)
Theorem order_pizza_total (size crust : string) (toppings sauces : list string) :
  (exists r, order_pizza_typed size crust toppings sauces = Ret r)
  /\ (forall e, order_pizza_typed size crust toppings sauces <> Raise e)
  /\ (forall size' crust' toppings' sauces',
        size' = size -> crust' = crust -> toppings' = toppings -> sauces' = sauces ->
        order_pizza_typed size' crust' toppings' sauces'
        = order_pizza_typed size crust toppings sauces).
Proof.
  rewrite order_pizza_typed_unfold. split; [eauto |]. split; [discriminate |].
  intros ? ? ? ? -> -> -> ->. now rewrite order_pizza_typed_unfold.
Qed.

Lemma order_pizza_total_witness :
  exists r, order_pizza_typed "" "" [""] [] = Ret r
            /\ order_pizza_typed "" "" [""] [] = Ret r.
Proof.
  destruct (order_pizza_total "" "" [""] []) as ((r & Hr) & _ & Hsame).
  exists r. split; [exact Hr |].
  rewrite <- Hr. apply Hsame; reflexivity.
Defined.

(** C9. With the size and the crust fixed, adding elements to the toppings
    or to the sauces never lowers the price. *)
Theorem price_monotone (size crust : string) (toppings toppings' sauces sauces' : list string) :
  toppings `sublist_of` toppings' ->
  sauces `sublist_of` sauces' ->
  exists r r',
    order_pizza_typed size crust toppings sauces = Ret r
    /\ order_pizza_typed size crust toppings' sauces' = Ret r'
    /\ o_price (r_order r) <= o_price (r_order r').
Proof.
  intros Ht Hs. do 2 eexists.
  split; [apply order_pizza_typed_unfold |].
  split; [apply order_pizza_typed_unfold |].
  simpl. rewrite !round_raw_price, !raw_price_exact.
  apply sublist_length in Ht, Hs.
  assert (inject_Z (Z.of_nat (length toppings)) <= inject_Z (Z.of_nat (length toppings')))
    by (rewrite <- Zle_Qle; lia).
  assert (inject_Z (Z.of_nat (length sauces)) <= inject_Z (Z.of_nat (length sauces')))
    by (rewrite <- Zle_Qle; lia).
  lra.
Qed.

Lemma price_monotone_witness :
  exists r r',
    order_pizza_typed "medium" "thin" ["ham"] [] = Ret r
    /\ order_pizza_typed "medium" "thin" ["olives"; "ham"] ["pesto"] = Ret r'
    /\ o_price (r_order r) <= o_price (r_order r').
Proof.
  apply (price_monotone "medium" "thin" ["ham"] ["olives"; "ham"] [] ["pesto"]).
  - apply sublist_cons, sublist_skip, sublist_nil.
  - apply sublist_cons, sublist_nil.
Defined.

(** ** The session *)

Lemma sum_prices_snoc (os : list order) (o : order) :
  Spec.sum_prices (os ++ [o]) == Spec.sum_prices os + o_price o.
Proof.
  unfold Spec.sum_prices. induction os as [| o' os IH]; simpl.
  - ring.
  - rewrite IH. ring.
Qed.

Lemma announced_app (o1 o2 : list output) :
  Spec.announced (o1 ++ o2) = Spec.announced o1 ++ Spec.announced o2.
Proof. apply omap_app. Qed.

Lemma truthy_empty (s : string) : PyStr.truthy s = false <-> s = "".
Proof. destruct s; simpl; split; congruence. Qed.

Lemma print_orders_announced (os : list order) (i : nat) :
  Spec.announced (print_orders i os).1 = []
  /\ (OutSummaryHeader ∉ (print_orders i os).1).
Proof.
  revert i. induction os as [| o os IH]; intros i; simpl; [split; [done | apply not_elem_of_nil] |].
  destruct (joinable (o_toppings o)); simpl;
    [| split; [done | rewrite !not_elem_of_cons; repeat split; [done | apply not_elem_of_nil]]].
  destruct (joinable (o_sauces o)); simpl;
    [| split; [done | rewrite !not_elem_of_cons; repeat split; [done .. | apply not_elem_of_nil]]].
  specialize (IH (S i)). destruct (print_orders (S i) os) as [out e]. simpl in *.
  split; [tauto | rewrite !not_elem_of_cons; repeat split; [done .. | tauto]].
Qed.

Lemma quiet_refl (st : state) : quiet st st.
Proof. by repeat split. Qed.

Lemma quiet_trans (st1 st2 st3 : state) : quiet st1 st2 -> quiet st2 st3 -> quiet st1 st3.
Proof.
  intros (Ho & Ht & Ha & Hs) (Ho' & Ht' & Ha' & Hs').
  repeat split; [congruence | congruence | congruence | auto].
Qed.

Lemma quiet_goto (l : location) (st0 st : state) : quiet st0 st -> quiet st0 (goto l st).
Proof. intros H. apply (quiet_trans _ _ _ H). by repeat split. Qed.

Lemma quiet_print (o : output) (st0 st : state) :
  match o with OutPrice _ | OutSummaryHeader => False | _ => True end ->
  quiet st0 st -> quiet st0 (print o st).
Proof.
  intros Ho H. apply (quiet_trans _ _ _ H). repeat split; simpl.
  - rewrite announced_app. destruct o; simpl; try done; by rewrite app_nil_r.
  - rewrite elem_of_app, list_elem_of_singleton.
    intros [Hin | Hin]; [exact Hin | subst o; destruct Ho].
Qed.

Lemma quiet_set_name (n : string) (st0 st : state) :
  quiet st0 st -> quiet st0 (set_name n st).
Proof. intros H. apply (quiet_trans _ _ _ H). by repeat split. Qed.

Lemma quiet_append_message (m : message) (st0 st : state) :
  quiet st0 st -> quiet st0 (append_message m st).
Proof. intros H. apply (quiet_trans _ _ _ H). by repeat split. Qed.

Create HintDb quiet.
#[local] Hint Resolve quiet_refl quiet_goto quiet_set_name quiet_append_message : quiet.
#[local] Hint Extern 1 (quiet _ (print _ _)) => (apply quiet_print; [exact I |]) : quiet.

Lemma handle_text_quiet (msg : response) (st : state) : quiet st (handle_text msg st).
Proof.
  unfold handle_text. destruct (msg_content msg) as [c |]; [| auto with quiet].
  destruct (PyStr.truthy c); eauto 6 with quiet.
Qed.

Lemma handle_text_pc (msg : response) (st : state) : pc (handle_text msg st) = pc st.
Proof.
  unfold handle_text. destruct (msg_content msg) as [c |]; [| done].
  by destruct (PyStr.truthy c).
Qed.

Lemma user_turn_quiet (s : string) (l : location) (st : state) :
  quiet st (user_turn s l st).
Proof. unfold user_turn. destruct (PyStr.truthy _); eauto with quiet. Qed.

Lemma ask_name_quiet (s : string) (st : state) : quiet st (ask_name s st).
Proof.
  unfold ask_name. destruct (PyStr.truthy _).
  - by repeat split.
  - apply quiet_goto, quiet_print; [exact I |]. by repeat split.
Qed.

Lemma greet_stdout_quiet (api : py response) (st : state) :
  Spec.announced (stdout (greet api st)) = Spec.announced (stdout st)
  /\ (OutSummaryHeader ∈ stdout (greet api st) -> OutSummaryHeader ∈ stdout st).
Proof.
  unfold greet. cbv zeta.
  set (st1 := match extract_name api with Ret n => _ | Raise e => _ end).
  assert (H1 : quiet st st1).
  { unfold st1. destruct (extract_name api); eauto 8 with quiet. }
  set (st2 := if PyStr.truthy (name st1) then _ else _).
  assert (H2 : quiet st st2).
  { unfold st2. destruct (PyStr.truthy _); eauto 8 with quiet. }
  assert (H3 : quiet st (print (OutHi (name st2)) st2)) by eauto with quiet.
  destruct H3 as (_ & _ & Ha & Hs). simpl in *. auto.
Qed.

(** The summary touches the console and the program counter only. *)
Lemma session_end_frame (st : state) :
  messages (session_end st) = messages st
  /\ orders (session_end st) = orders st
  /\ total (session_end st) = total st
  /\ Spec.announced (stdout (session_end st)) = Spec.announced (stdout st)
  /\ blocked (pc (session_end st)) = false
  /\ exists out, stdout (session_end st) = stdout st ++ OutSummaryHeader :: out.
Proof.
  unfold session_end.
  destruct (print_orders_announced (orders st) 1) as [Hout _].
  destruct (print_orders 1 (orders st)) as [out [ex |]]; simpl in *.
  - repeat split; eauto.
    rewrite announced_app. simpl. rewrite Hout. apply app_nil_r.
  - repeat split.
    + rewrite !announced_app. simpl. rewrite Hout. simpl. now rewrite !app_nil_r.
    + exists (out ++ [OutTotal (total st); OutThanks]).
      rewrite <- !app_assoc. reflexivity.
Qed.

#[local] Arguments ask_name : simpl never.
#[local] Arguments greet : simpl never.
#[local] Arguments user_turn : simpl never.
#[local] Arguments model_turn : simpl never.
#[local] Arguments handle_text : simpl never.
#[local] Arguments handle_function_call : simpl never.
#[local] Arguments another : simpl never.
#[local] Arguments session_end : simpl never.
#[local] Arguments call_order_pizza : simpl never.

Section SessionProperties.

Context {json_module : JsonModule}.


Lemma function_call_undecoded (fc : function_call) (st : state) (e : exn) :
  json_loads (fc_arguments fc) = Raise e ->
  e <> JSONDecodeError ->
  handle_function_call fc st = goto (Crashed e) st.
Proof. intros H He. unfold handle_function_call. rewrite H. now destruct e. Qed.

Lemma function_call_raises (fc : function_call) (st : state) (args : json) (e : exn) :
  json_loads (fc_arguments fc) = Ret args ->
  call_order_pizza args = Raise e ->
  handle_function_call fc st = goto (Crashed e) st.
Proof. intros H1 H2. unfold handle_function_call. now rewrite H1, H2. Qed.

Lemma function_call_placed (fc : function_call) (st : state) (args : json) (r : result) :
  json_loads (fc_arguments fc) = Ret args ->
  call_order_pizza args = Ret r ->
  handle_function_call fc st
  = match json_dumps r with
    | Raise e =>
        goto (Crashed e)
          (record_order (r_order r)
             (print (OutPrice (o_price (r_order r)))
                (print (OutOrderPlaced (eta r)) st)))
    | Ret content =>
        goto AskingAnother
          (append_message (Function "order_pizza" content)
             (record_order (r_order r)
                (print (OutPrice (o_price (r_order r)))
                   (print (OutOrderPlaced (eta r)) st))))
    end.
Proof.
  intros H1 H2. unfold handle_function_call. rewrite H1, H2.
  now destruct (json_dumps r).
Qed.

(** An action call whose arguments do not decode leaves the orders, the
    total and the transcript alone, caught or not. *)
Lemma function_call_failed_quiet (fc : function_call) (st0 st : state) (e : exn) :
  json_loads (fc_arguments fc) = Raise e ->
  quiet st0 st -> quiet st0 (handle_function_call fc st).
Proof.
  intros H Hq. unfold handle_function_call. rewrite H.
  destruct e; auto with quiet.
Qed.

(** What one step of the loop does to the session totals and to the
    announcements: nothing, unless it places an order. *)
Lemma step_totals (st st' : state) (e : event) :
  in_loop (pc st) = true ->
  step st e = Some st' ->
  orders st' = orders st ++ option_list (placed st e)
  /\ total st' = foldl PyFloat.add (total st) (o_price <$> option_list (placed st e))
  /\ Spec.announced (stdout st')
     = Spec.announced (stdout st) ++ (o_price <$> option_list (placed st e)).
Proof.
  intros Hloop Hstep.
  assert (Hquiet : forall st1, quiet st st1 ->
            orders st1 = orders st ++ []
            /\ total st1 = total st
            /\ Spec.announced (stdout st1) = Spec.announced (stdout st) ++ []).
  { intros st1 (Ho & Ht & Ha & _). by rewrite !app_nil_r. }
  unfold step, placed in *.
  destruct (pc st) eqn:Hpc; try discriminate Hloop; destruct e as [s | | msg | err];
    simplify_eq/=; try (apply Hquiet; solve [auto using user_turn_quiet with quiet]).
  - unfold model_turn.
    pose proof (handle_text_quiet msg st) as Hq.
    destruct (msg_function_call msg) as [fc |]; simpl; [| apply Hquiet; auto with quiet].
    destruct (json_loads (fc_arguments fc)) as [args | ex] eqn:Hargs; simpl.
    + destruct (call_order_pizza args) as [r | ex] eqn:Hcall.
      * rewrite (function_call_placed _ _ _ _ Hargs Hcall).
        destruct Hq as (Ho & Ht & Ha & _).
        destruct (json_dumps r); simpl;
          by rewrite Ho, Ht, !announced_app, Ha, <- app_assoc.
      * rewrite (function_call_raises _ _ _ _ Hargs Hcall). apply Hquiet. auto with quiet.
    + apply Hquiet. by apply (function_call_failed_quiet _ _ _ _ Hargs).
  - apply (Hquiet (goto AbortedOnApiError (print (OutChatError (APIError err)) st))).
    auto with quiet.
  - unfold another. destruct (String.eqb _ _); [apply Hquiet; auto with quiet |].
    destruct (session_end_frame st) as (_ & Ho & Ht & Ha & _).
    by rewrite Ho, Ht, Ha, !app_nil_r.
Qed.

(** Before the loop nothing is recorded or announced. *)
Lemma step_before_loop (st st' : state) (e : event) :
  before_loop (pc st) = true ->
  fresh st ->
  step st e = Some st' ->
  orders st' = [] /\ total st' = 0 /\ Spec.announced (stdout st') = []
  /\ placed st e = None.
Proof.
  intros Hpre Hfresh Hstep. destruct (Hfresh Hpre) as (Ho & Ht & Ha).
  unfold step, placed in *.
  destruct (pc st) eqn:Hpc; try discriminate Hpre; destruct e as [s | | msg | err];
    try discriminate Hstep; injection Hstep as <-.
  - destruct (ask_name_quiet s st) as (-> & -> & -> & _). done.
  - done.
  - destruct (greet_stdout_quiet (Ret msg) st) as (-> & _). done.
  - destruct (greet_stdout_quiet (Raise (APIError err)) st) as (-> & _). done.
Qed.

Lemma step_leaves_prologue (st st' : state) (e : event) :
  before_loop (pc st) = false ->
  step st e = Some st' ->
  in_loop (pc st) = true /\ before_loop (pc st') = false.
Proof.
  intros Hpre Hstep. unfold step in Hstep.
  destruct (pc st) eqn:Hpc; try discriminate Hpre; destruct e as [s | | msg | err];
    simplify_eq/=; split; try done.
  - unfold user_turn. by destruct (PyStr.truthy _).
  - unfold model_turn. rewrite <- (handle_text_pc msg st) in Hpc.
    destruct (msg_function_call msg) as [fc |]; [| done].
    unfold handle_function_call.
    destruct (json_loads (fc_arguments fc)) as [args | ex]; [| by destruct ex].
    destruct (call_order_pizza args) as [r | ex]; [| done].
    by destruct (json_dumps r).
  - unfold user_turn. by destruct (PyStr.truthy _).
  - unfold another. destruct (String.eqb _ _); [done |].
    destruct (session_end_frame st) as (_ & _ & _ & _ & Hb & _).
    by destruct (pc (session_end st)).
Qed.

Lemma step_fresh (st st' : state) (e : event) :
  fresh st -> step st e = Some st' -> fresh st'.
Proof.
  intros Hfresh Hstep Hpre'.
  destruct (before_loop (pc st)) eqn:Hpre.
  - destruct (step_before_loop _ _ _ Hpre Hfresh Hstep) as (? & ? & ? & _). done.
  - destruct (step_leaves_prologue _ _ _ Hpre Hstep). congruence.
Qed.

(** Every step, of the loop or before it, appends the order it places
    and nothing else. *)
Lemma step_effect (st st' : state) (e : event) :
  fresh st ->
  step st e = Some st' ->
  orders st' = orders st ++ option_list (placed st e)
  /\ total st' = foldl PyFloat.add (total st) (o_price <$> option_list (placed st e))
  /\ Spec.announced (stdout st')
     = Spec.announced (stdout st) ++ (o_price <$> option_list (placed st e)).
Proof.
  intros Hfresh Hstep.
  destruct (before_loop (pc st)) eqn:Hpre.
  - destruct (step_before_loop _ _ _ Hpre Hfresh Hstep) as (-> & -> & -> & ->).
    destruct (Hfresh Hpre) as (-> & -> & ->). done.
  - apply step_totals; [| done]. by destruct (step_leaves_prologue _ _ _ Hpre Hstep).
Qed.

Lemma totals_step (st st' : state) (e : event) :
  fresh st ->
  step st e = Some st' ->
  Spec.totals_ok st -> Spec.totals_ok st'.
Proof.
  intros Hfresh Hstep Hok. unfold Spec.totals_ok in *.
  destruct (step_effect _ _ _ Hfresh Hstep) as (-> & -> & _).
  destruct (placed st e) as [o |]; simpl.
  - now rewrite add_exact, sum_prices_snoc, Hok.
  - now rewrite app_nil_r.
Qed.

Lemma run_one (st : state) (e : event) : run st [e] = step st e.
Proof. simpl. by destruct (step st e). Qed.

Lemma run_two (st st1 : state) (e1 e2 : event) :
  step st e1 = Some st1 -> run st [e1; e2] = step st1 e2.
Proof. intros H. change (run st [e1; e2]) with (step st e1 ≫= fun s => run s [e2]).
       rewrite H. apply run_one. Qed.

Lemma run_app (st : state) (es1 es2 : list event) :
  run st (es1 ++ es2) = run st es1 ≫= fun st' => run st' es2.
Proof.
  revert st. induction es1 as [| e es1 IH]; intros st; simpl; [done |].
  destruct (step st e) as [st' |]; simpl; [apply IH | done].
Qed.

Lemma run_invariant (st st' : state) (es : list event) :
  fresh st -> Spec.totals_ok st ->
  run st es = Some st' ->
  fresh st' /\ Spec.totals_ok st'
  /\ orders st' = orders st ++ placed_along st es
  /\ Spec.announced (stdout st')
     = Spec.announced (stdout st) ++ (o_price <$> placed_along st es).
Proof.
  revert st. induction es as [| e es IH]; intros st Hfresh Hok Hrun; simpl in *.
  - simplify_eq. by rewrite !app_nil_r.
  - destruct (step st e) as [st1 |] eqn:Hstep; [| done]. simpl in Hrun.
    destruct (IH st1 (step_fresh _ _ _ Hfresh Hstep) (totals_step _ _ _ Hfresh Hstep Hok) Hrun)
      as (Hf & Ht & Ho & Ha).
    destruct (step_effect _ _ _ Hfresh Hstep) as (Ho1 & _ & Ha1).
    rewrite Ho, Ha, Ho1, Ha1, fmap_app, <- !app_assoc. done.
Qed.

Lemma initial_fresh : fresh initial /\ Spec.totals_ok initial.
Proof. split; [done | unfold Spec.totals_ok; simpl; reflexivity]. Qed.

(** C2. At every point of a session the running total is the exact sum
    of the prices of the recorded orders, and the recorded orders are
    the orders placed so far, in placement order (they are also the
    orders whose price the console announced); every step of the loop
    preserves this, appending the order it places, if any. *)
Theorem session_totals_exact :
  (forall (es : list event) (st : state),
      run initial es = Some st ->
      total st == Spec.sum_prices (orders st)
      /\ orders st = placed_along initial es
      /\ o_price <$> orders st = Spec.announced (stdout st))
  /\ (forall (st st' : state) (e : event),
        in_loop (pc st) = true ->
        total st == Spec.sum_prices (orders st) ->
        step st e = Some st' ->
        total st' == Spec.sum_prices (orders st')
        /\ orders st' = orders st ++ option_list (placed st e)).
Proof.
  split.
  - intros es st Hrun.
    destruct initial_fresh as (Hf & Hok).
    destruct (run_invariant _ _ _ Hf Hok Hrun) as (_ & Ht & Ho & Ha).
    simpl in Ho, Ha. repeat split; [exact Ht | exact Ho | by rewrite Ha, Ho].
  - intros st st' e Hloop Hok Hstep.
    assert (Hf : fresh st) by (intros Hpre; by destruct (pc st)).
    split; [exact (totals_step _ _ _ Hf Hstep Hok) |].
    by destruct (step_effect _ _ _ Hf Hstep).
Qed.

(** *** The summary *)

Lemma step_blocked (st st' : state) (e : event) :
  step st e = Some st' -> blocked (pc st) = true.
Proof. unfold step. by destruct (pc st). Qed.

Lemma ended_no_step (st : state) (e : event) :
  blocked (pc st) = false -> step st e = None.
Proof. unfold step. by destruct (pc st), e. Qed.

Lemma ended_no_run (st : state) (es : list event) :
  blocked (pc st) = false -> es <> [] -> run st es = None.
Proof.
  intros Hend Hes. destruct es as [| e es]; [done |].
  simpl. by rewrite (ended_no_step _ e Hend).
Qed.

(** Only the last step of the outer loop adds the summary. *)
Lemma step_summary (st st' : state) (e : event) :
  step st e = Some st' ->
  OutSummaryHeader ∈ stdout st' ->
  OutSummaryHeader ∈ stdout st \/ blocked (pc st') = false.
Proof.
  intros Hstep Hin.
  assert (Hquiet : forall st1, quiet st st1 -> st' = st1 ->
            OutSummaryHeader ∈ stdout st \/ blocked (pc st') = false).
  { intros st1 (_ & _ & _ & Hs) ->. left. by apply Hs. }
  unfold step in Hstep.
  destruct (pc st) eqn:Hpc; destruct e as [s | | msg | err];
    try discriminate Hstep; injection Hstep as Hst'; symmetry in Hst';
    try (eapply Hquiet; [| exact Hst'];
         solve [auto using user_turn_quiet, ask_name_quiet with quiet]).
  - left. apply (greet_stdout_quiet (Ret msg) st). by subst st'.
  - left. apply (greet_stdout_quiet (Raise (APIError err)) st). by subst st'.
  - unfold model_turn in Hst'.
    pose proof (handle_text_quiet msg st) as Hq.
    destruct (msg_function_call msg) as [fc |];
      [| eapply Hquiet; [| exact Hst']; auto with quiet].
    destruct (json_loads (fc_arguments fc)) as [args | ex] eqn:Hargs.
    + destruct (call_order_pizza args) as [r | ex] eqn:Hcall.
      * rewrite (function_call_placed _ _ _ _ Hargs Hcall) in Hst'.
        left. apply Hq.
        destruct (json_dumps r); subst st'; simpl in Hin;
          rewrite !elem_of_app, !list_elem_of_singleton in Hin;
          by destruct Hin as [[Hin | Hin] | Hin].
      * rewrite (function_call_raises _ _ _ _ Hargs Hcall) in Hst'.
        eapply Hquiet; [| exact Hst']. auto with quiet.
    + eapply Hquiet; [| exact Hst'].
      by apply (function_call_failed_quiet _ _ _ _ Hargs).
  - unfold model_turn in Hst'. eapply Hquiet; [| exact Hst']. auto with quiet.
  - unfold another in Hst'. destruct (String.eqb _ _).
    + eapply Hquiet; [| exact Hst']. auto with quiet.
    + right. subst st'. by destruct (session_end_frame st) as (_ & _ & _ & _ & Hb & _).
Qed.

Lemma step_summary_only_at_end (st st' : state) (e : event) :
  summary_only_at_end st -> step st e = Some st' -> summary_only_at_end st'.
Proof.
  intros Hinv Hstep Hin.
  destruct (step_summary _ _ _ Hstep Hin) as [Hold | Hend]; [| exact Hend].
  apply Hinv in Hold. apply step_blocked in Hstep. congruence.
Qed.

Lemma run_summary_only_at_end (st st' : state) (es : list event) :
  summary_only_at_end st -> run st es = Some st' -> summary_only_at_end st'.
Proof.
  revert st. induction es as [| e es IH]; intros st Hinv Hrun; simpl in Hrun.
  - by simplify_eq.
  - destruct (step st e) as [st1 |] eqn:Hstep; [| done].
    exact (IH st1 (step_summary_only_at_end _ _ _ Hinv Hstep) Hrun).
Qed.

Lemma initial_no_summary : summary_only_at_end initial.
Proof.
  intros Hin. exfalso. simpl in Hin.
  apply list_elem_of_singleton in Hin. discriminate.
Qed.

(** While [main] waits for the environment no summary was printed. *)
Lemma blocked_no_summary (st : state) (es : list event) :
  run initial es = Some st ->
  blocked (pc st) = true ->
  OutSummaryHeader ∉ stdout st.
Proof.
  intros Hrun Hb Hin.
  apply (run_summary_only_at_end _ _ _ initial_no_summary Hrun) in Hin. congruence.
Qed.

(** *** Another pizza *)

Lemma another_yes (s : string) (st : state) :
  PyStr.lower (PyStr.strip s) = "yes" -> another s st = goto AwaitingUserInput st.
Proof. intros H. unfold another. now rewrite H. Qed.

Lemma another_other (s : string) (st : state) :
  PyStr.lower (PyStr.strip s) <> "yes" -> another s st = session_end st.
Proof.
  intros H. unfold another. apply String.eqb_neq in H. now rewrite H.
Qed.

(** *** Failures of the negotiation *)


(** Arguments on which [json.loads] raises another exception end the
    session: the handler of line 146 does not catch it, nothing is
    reported or recorded, and no prompt follows. *)
Lemma undecoded_arguments_crash
    (st : state) (msg : response) (fc : function_call) (e : exn) :
  pc st = AwaitingModelResponse ->
  msg_function_call msg = Some fc ->
  json_loads (fc_arguments fc) = Raise e ->
  e <> JSONDecodeError ->
  step st (Reply msg) = Some (goto (Crashed e) (handle_text msg st)).
Proof.
  intros Hpc Hfc Hargs He. unfold step. rewrite Hpc. unfold model_turn. rewrite Hfc.
  by rewrite (function_call_undecoded _ _ _ Hargs He).
Qed.

(** C4. An error of the API during a completion call of the negotiation
    ends the session: the error is printed, [main] returns at once, so
    that no summary is on the console and nothing else has changed, and
    no further step exists. *)
Theorem api_error_is_fatal (es : list event) (st : state) (err : string) :
  run initial es = Some st ->
  pc st = AwaitingModelResponse ->
  exists st',
    step st (ApiError err) = Some st'
    /\ pc st' = AbortedOnApiError
    /\ stdout st' = stdout st ++ [OutChatError (APIError err)]
    /\ (OutSummaryHeader ∉ stdout st')
    /\ messages st' = messages st
    /\ orders st' = orders st
    /\ total st' = total st
    /\ (forall e, step st' e = None)
    /\ (forall es', es' <> [] -> run st' es' = None).
Proof.
  intros Hrun Hpc. eexists. split.
  { unfold step. rewrite Hpc. reflexivity. }
  repeat split; try done.
  - simpl. rewrite elem_of_app, list_elem_of_singleton.
    intros [Hin | Hin]; [| discriminate].
    apply (blocked_no_summary _ _ Hrun); [by rewrite Hpc | exact Hin].
  - intros es'. by apply ended_no_run.
Qed.

(** Arguments that miss a parameter or carry another key do not bind. *)
Lemma call_order_pizza_unbound (kwargs : gmap string json) :
  (exists p, (p ∈ parameters) /\ kwargs !! p = None)
  \/ (exists k, (k ∉ parameters) /\ is_Some (kwargs !! k)) ->
  call_order_pizza (JObj kwargs) = Raise TypeError.
Proof.
  intros H. unfold call_order_pizza. case_bool_decide as Hdom; [| reflexivity].
  destruct H as [(p & Hp & Hnone) | (k & Hk & Hsome)].
  - unfold parameters in Hp. rewrite !elem_of_cons in Hp. unfold argument.
    destruct Hp as [-> | [-> | [-> | [-> | Hp]]]];
      [| | | | by apply elem_of_nil in Hp];
      repeat (rewrite ?Hnone; simpl; try reflexivity;
              match goal with
              | |- context [kwargs !! ?x] =>
                  lazymatch goal with
                  | H : kwargs !! x = None |- _ => fail
                  | _ => destruct (kwargs !! x)
                  end
              end).
  - exfalso. apply Hk. apply elem_of_dom in Hsome.
    apply Hdom in Hsome. by apply elem_of_list_to_set in Hsome.
Qed.

(** C10. When the arguments of the action call decode to an object that
    misses one of size, crust, toppings, sauces, or that has any other
    key, binding them to the parameters of [order_pizza] raises a
    [TypeError] that nothing catches: the session ends there, with no
    summary on the console and no order recorded; the state it ends in
    is neither the parse failure's nor the one of an error of the
    API. *)
Theorem unbound_arguments_crash
    (es : list event) (st : state) (msg : response) (fc : function_call)
    (kwargs : gmap string json) :
  run initial es = Some st ->
  pc st = AwaitingModelResponse ->
  msg_function_call msg = Some fc ->
  json_loads (fc_arguments fc) = Ret (JObj kwargs) ->
  (exists p, (p ∈ parameters) /\ kwargs !! p = None)
  \/ (exists k, (k ∉ parameters) /\ is_Some (kwargs !! k)) ->
  exists st',
    step st (Reply msg) = Some st'
    /\ pc st' = Crashed TypeError
    /\ (OutSummaryHeader ∉ stdout st')
    /\ (OutParseFailed ∉ drop (length (stdout st)) (stdout st'))
    /\ orders st' = orders st
    /\ total st' = total st
    /\ (forall e, step st' e = None)
    /\ (forall es', es' <> [] -> run st' es' = None).
Proof.
  intros Hrun Hpc Hfc Hargs Hbad. eexists. split.
  { unfold step. rewrite Hpc. unfold model_turn. rewrite Hfc.
    rewrite (function_call_raises _ _ _ _ Hargs (call_order_pizza_unbound _ Hbad)).
    reflexivity. }
  destruct (handle_text_quiet msg st) as (Ho & Ht & _ & Hs).
  repeat split; try done.
  - simpl. intros Hin. apply Hs in Hin.
    apply (blocked_no_summary _ _ Hrun); [by rewrite Hpc | exact Hin].
  - simpl. unfold handle_text.
    destruct (msg_content msg) as [c |]; [destruct (PyStr.truthy c) |]; simpl;
      rewrite ?drop_app_length, ?drop_all;
      first [apply not_elem_of_nil
            | rewrite not_elem_of_cons; split; [done | apply not_elem_of_nil]].
  - intros es'. by apply ended_no_run.
Qed.

(** *** The name *)

(** C5. When the call of the name extraction fails, the session goes on
    to the order loop with the raw input as the name, where the raw
    input is [raw_name_input]: the typed line without the white space
    around it, as it was handed to the extraction.  The same happens
    when the extracted name is empty after trimming (or absent). *)
Theorem name_extraction_fallback (s : string) :
  PyStr.strip s <> "" ->
  (exists st, run initial [Line s] = Some st
              /\ pc st = ExtractingName
              /\ raw_name_input st = PyStr.strip s)
  /\ (forall err, exists st',
        run initial [Line s; ApiError err] = Some st'
        /\ name st' = PyStr.strip s
        /\ name st' = raw_name_input st'
        /\ pc st' = AwaitingUserInput
        /\ stdout st' = [OutWelcome; OutNameError (RuntimeError (APIError err));
                         OutProceeding (PyStr.strip s); OutHi (PyStr.strip s)])
  /\ (forall msg,
        msg_content msg = None
        \/ (exists content, msg_content msg = Some content /\ PyStr.strip content = "") ->
        exists st',
          run initial [Line s; Reply msg] = Some st'
          /\ name st' = PyStr.strip s
          /\ name st' = raw_name_input st'
          /\ pc st' = AwaitingUserInput
          /\ OutHi (PyStr.strip s) ∈ stdout st')
  /\ (forall msg content,
        msg_content msg = Some content -> PyStr.strip content <> "" ->
        exists st',
          run initial [Line s; Reply msg] = Some st'
          /\ name st' = PyStr.strip content
          /\ pc st' = AwaitingUserInput).
Proof.
  intros Hs.
  assert (Ht : PyStr.truthy (PyStr.strip s) = true).
  { destruct (PyStr.truthy (PyStr.strip s)) eqn:E; [done |]. by apply truthy_empty in E. }
  assert (Hask : step initial (Line s)
                 = Some (State ExtractingName (PyStr.strip s) "" [] [] 0 [OutWelcome])).
  { unfold step, ask_name. simpl. now rewrite Ht. }
  split; [eexists; rewrite run_one, Hask; by repeat split |].
  split; [| split].
  - intros err. eexists. rewrite (run_two _ _ _ _ Hask). split; [reflexivity |].
    unfold greet. simpl. rewrite Ht. by repeat split.
  - intros msg Hmsg. eexists. rewrite (run_two _ _ _ _ Hask). split; [reflexivity |].
    unfold greet, extract_name. simpl.
    destruct Hmsg as [-> | (content & -> & ->)]; simpl; rewrite ?Ht; simpl;
      repeat split; rewrite ?elem_of_cons; auto 10.
  - intros msg content Hc Hne. eexists. rewrite (run_two _ _ _ _ Hask).
    split; [reflexivity |].
    unfold greet, extract_name. simpl. rewrite Hc. simpl.
    destruct (PyStr.truthy (PyStr.strip content)) eqn:E; [by repeat split |].
    by apply truthy_empty in E.
Qed.

(** *** Another pizza *)

Lemma print_orders_printable (os : list order) (i : nat) :
  forallb printable os = true -> (print_orders i os).2 = None.
Proof.
  revert i. induction os as [| o os IH]; intros i; simpl; [done |].
  unfold printable at 1. rewrite !andb_true_iff. intros [[-> ->] Hos]. simpl.
  specialize (IH (S i) Hos). by destruct (print_orders (S i) os).
Qed.

Lemma session_end_finished (st : state) :
  forallb printable (orders st) = true -> pc (session_end st) = Finished.
Proof.
  intros H. apply (print_orders_printable _ 1) in H. unfold session_end.
  destruct (print_orders 1 (orders st)) as [out e]. simpl in H. by subst e.
Qed.

(** C6, as amended.  After an order is placed or abandoned, the answers
    to the "order another?" prompt that are "yes" once the white space
    around them is removed and their letters are put in lower case (and
    only those) return to the order loop with the same transcript;
    every other answer leaves the loop for the end of the session, where
    the summary is printed. *)
Theorem another_pizza_answer (st : state) (s : string) :
  pc st = AskingAnother ->
  (PyStr.lower (PyStr.strip s) = "yes" ->
   exists st', step st (Line s) = Some st'
               /\ pc st' = AwaitingUserInput
               /\ messages st' = messages st
               /\ orders st' = orders st
               /\ total st' = total st
               /\ stdout st' = stdout st)
  /\ (PyStr.lower (PyStr.strip s) <> "yes" ->
      step st (Line s) = Some (session_end st)
      /\ blocked (pc (session_end st)) = false
      /\ (forallb printable (orders st) = true -> pc (session_end st) = Finished)
      /\ exists out, stdout (session_end st) = stdout st ++ OutSummaryHeader :: out).
Proof.
  intros Hpc. split; intros Hs.
  - eexists. split; [unfold step; rewrite Hpc, (another_yes _ _ Hs); reflexivity |].
    by repeat split.
  - destruct (session_end_frame st) as (_ & _ & _ & _ & Hb & Hout).
    split; [unfold step; by rewrite Hpc, (another_other _ _ Hs) |].
    split; [exact Hb |]. split; [apply session_end_finished | exact Hout].
Qed.

(** *** Empty lines *)

(** An empty line changes neither the transcript, nor the orders, nor
    the total, nor the console, at either prompt. *)
Lemma empty_line_frame (st : state) (s : string) (l : location) :
  PyStr.strip s = "" -> user_turn s l st = goto l st.
Proof. intros H. unfold user_turn. now rewrite H. Qed.

(** At the prompt of the outer loop (line 119) it prompts again. *)
Lemma empty_line_prompts_again (st : state) (s : string) :
  pc st = AwaitingUserInput -> PyStr.strip s = "" -> step st (Line s) = Some st.
Proof.
  intros Hpc H. unfold step. rewrite Hpc, (empty_line_frame _ _ _ H).
  destruct st. simpl in *. by subst.
Qed.

(** At the prompt of the inner loop (line 161) it goes back to the
    completion call of line 126, with the transcript as it is. *)
Lemma empty_line_calls_model (st : state) (s : string) :
  pc st = AwaitingNextUserInput -> PyStr.strip s = "" ->
  step st (Line s) = Some (goto AwaitingModelResponse st).
Proof. intros Hpc H. unfold step. by rewrite Hpc, (empty_line_frame _ _ _ H). Qed.

End SessionProperties.

(** ** Sessions with the concrete environment *)

#[local] Existing Instance Demo.json_module.

Example two_pizzas_session :
  exists st,
    run initial Demo.two_pizzas = Some st
    /\ pc st = Finished
    /\ o_price <$> orders st = [11; 5]
    /\ total st = 16
    /\ messages st
       = [ System system_prompt;
           User "a large thin one"; Assistant "Which toppings?";
           User "pepperoni and olives, marinara";
           Function "order_pizza" "price in hundredths: 1100";
           User "and a small one"; User "a small pan pizza";
           Function "order_pizza" "price in hundredths: 500" ].
Proof. eexists. split; [vm_compute; reflexivity |]. by repeat split. Qed.

Lemma session_totals_witness :
  exists st,
    run initial Demo.two_pizzas = Some st
    /\ total st == Spec.sum_prices (orders st)
    /\ orders st = placed_along initial Demo.two_pizzas.
Proof.
  destruct (run initial Demo.two_pizzas) as [st |] eqn:Hrun; [| vm_compute in Hrun; discriminate].
  exists st. split; [reflexivity |].
  destruct (proj1 session_totals_exact Demo.two_pizzas st Hrun) as (Ht & Ho & _).
  by split.
Defined.


Lemma api_error_witness :
  exists st',
    step Demo.negotiating (ApiError "connection reset") = Some st'
    /\ pc st' = AbortedOnApiError
    /\ (OutSummaryHeader ∉ stdout st').
Proof.
  assert (Hrun : run initial Demo.opening = Some Demo.negotiating) by reflexivity.
  assert (Hpc0 : pc Demo.negotiating = AwaitingModelResponse) by reflexivity.
  destruct (api_error_is_fatal Demo.opening Demo.negotiating "connection reset" Hrun Hpc0)
    as (st' & Hstep & Hpc & _ & Hsum & _).
  by exists st'.
Defined.

Lemma unbound_arguments_witness :
  exists st',
    step Demo.negotiating (Reply (Demo.call Demo.no_crust)) = Some st'
    /\ pc st' = Crashed TypeError
    /\ (OutSummaryHeader ∉ stdout st').
Proof.
  assert (Hrun : run initial Demo.opening = Some Demo.negotiating) by reflexivity.
  assert (Hpc0 : pc Demo.negotiating = AwaitingModelResponse) by reflexivity.
  assert (Hargs : json_loads Demo.no_crust
                  = Ret (JObj {[ "size" := JStr "small"; "toppings" := strs [];
                                  "sauces" := strs [] ]})) by reflexivity.
  destruct (unbound_arguments_crash Demo.opening Demo.negotiating
              (Demo.call Demo.no_crust) (FunctionCall "order_pizza" Demo.no_crust)
              _ Hrun Hpc0 eq_refl Hargs)
    as (st' & Hstep & Hpc & Hsum & _).
  - left. exists "crust". split; [| reflexivity].
    unfold parameters. rewrite !elem_of_cons. auto.
  - by exists st'.
Defined.

(** The same with an object that has all four keys and one more. *)
Example extra_key_crashes :
  pc <$> step Demo.negotiating (Reply (Demo.call Demo.with_note))
  = Some (Crashed TypeError).
Proof. vm_compute. reflexivity. Qed.

Lemma name_extraction_fallback_witness :
  exists st',
    run initial [Line "  Bob "; ApiError "timeout"] = Some st'
    /\ name st' = "Bob"
    /\ pc st' = AwaitingUserInput.
Proof.
  assert (Hs : PyStr.strip "  Bob " <> "") by discriminate.
  destruct (name_extraction_fallback "  Bob " Hs) as (_ & Herr & _).
  destruct (Herr "timeout") as (st' & Hrun & Hname & _ & Hpc & _).
  by exists st'.
Defined.

(** C6, as stated, fails: the answer "YES" is not the string "yes", and
    it returns to the order loop instead of ending the session. *)
Lemma yes_in_capitals_orders_another :
  pc Demo.served = AskingAnother
  /\ "YES" <> "yes"
  /\ step Demo.served (Line "YES") = Some (goto AwaitingUserInput Demo.served)
  /\ step Demo.served (Line "YES") <> Some (session_end Demo.served)
  /\ step Demo.served (Line " yes  ") = Some (goto AwaitingUserInput Demo.served).
Proof.
  split; [reflexivity |]. split; [discriminate |].
  split; [vm_compute; reflexivity |]. split; [| vm_compute; reflexivity].
  vm_compute. discriminate.
Qed.

Lemma another_pizza_answer_witness :
  (exists st', step Demo.served (Line "Yes") = Some st' /\ pc st' = AwaitingUserInput)
  /\ step Demo.served (Line "no") = Some (session_end Demo.served)
  /\ pc (session_end Demo.served) = Finished.
Proof.
  assert (Hpc0 : pc Demo.served = AskingAnother) by reflexivity.
  destruct (another_pizza_answer Demo.served "Yes" Hpc0) as [Hyes _].
  destruct (another_pizza_answer Demo.served "no" Hpc0) as [_ Hno].
  destruct (Hyes eq_refl) as (st' & Hstep & Hpc & _).
  destruct Hno as (Hstep' & _ & Hfin & _); [discriminate |].
  split; [by exists st' |]. split; [exact Hstep' | by apply Hfin].
Defined.

(** C7 fails in the inner loop.  After the model answered in text, an
    empty line at the prompt of line 161 leaves the transcript, the orders
    and the total as they are, but the program does not prompt again: it
    issues a completion request with the unchanged transcript, and the
    answer of the model is appended to it.  At the prompt of line 119 the
    same line prompts again. *)
Theorem empty_line_reissues_completion :
  run initial Demo.asked_size = Some Demo.answering
  /\ pc Demo.answering = AwaitingNextUserInput
  /\ PyStr.strip "   " = ""
  /\ step Demo.answering (Line "   ") = Some (goto AwaitingModelResponse Demo.answering)
  /\ messages (goto AwaitingModelResponse Demo.answering) = messages Demo.answering
  /\ (messages <$> run Demo.answering [Line "   "; Reply (Demo.text "Are you there?")])
     = Some (messages Demo.answering ++ [Assistant "Are you there?"])
  /\ step (goto AwaitingUserInput Demo.answering) (Line "   ")
     = Some (goto AwaitingUserInput Demo.answering).
Proof. repeat split; vm_compute; reflexivity. Qed.

(** * Further properties of the code *)

(** ** The pricing function on any decoded values *)

Lemma order_pizza_not_str (size crust toppings sauces : json) :
  is_str size = false -> order_pizza size crust toppings sauces = Raise AttributeError.
Proof. intros H. now destruct size. Qed.

Lemma has_len_spec (v : json) :
  (has_len v = true -> exists n, len v = Ret n)
  /\ (has_len v = false -> len v = Raise TypeError).
Proof. destruct v; simpl; split; intros H; try discriminate; eauto. Qed.

(** X1. [order_pizza] raises [AttributeError] exactly when the size is
    not a string, [TypeError] exactly when the size is a string and the
    toppings or the sauces have no length, and returns otherwise; when it
    returns, the order holds the four arguments as they came and the
    price is the base price of the size plus 0.75 for each item of the
    toppings and 0.5 for each item of the sauces, whatever the items and
    the crust are. *)
Theorem order_pizza_outcome (size crust toppings sauces : json) :
  (is_str size = false <-> order_pizza size crust toppings sauces = Raise AttributeError)
  /\ (is_str size = true /\ has_len toppings && has_len sauces = false
      <-> order_pizza size crust toppings sauces = Raise TypeError)
  /\ (is_str size && has_len toppings && has_len sauces = true
      <-> exists r, order_pizza size crust toppings sauces = Ret r)
  /\ (forall s n m,
        size = JStr s -> len toppings = Ret n -> len sauces = Ret m ->
        exists p,
          order_pizza size crust toppings sauces
          = Ret (Result "success" (Order size crust toppings sauces p) "20 minutes")
          /\ p == inject_Z (Spec.base_price s)
                  + (3 # 4) * inject_Z (Z.of_nat n) + (1 # 2) * inject_Z (Z.of_nat m)).
Proof.
  assert (Hret : forall s n m,
            size = JStr s -> len toppings = Ret n -> len sauces = Ret m ->
            exists p,
              order_pizza size crust toppings sauces
              = Ret (Result "success" (Order size crust toppings sauces p) "20 minutes")
              /\ p == inject_Z (Spec.base_price s)
                      + (3 # 4) * inject_Z (Z.of_nat n) + (1 # 2) * inject_Z (Z.of_nat m)).
  { intros s n m -> Hn Hm. eexists. split; [by apply order_pizza_unfold |].
    by rewrite round_raw_price, raw_price_exact, base_price_lookup. }
  cut ((is_str size = false <-> order_pizza size crust toppings sauces = Raise AttributeError)
       /\ (is_str size = true /\ has_len toppings && has_len sauces = false
           <-> order_pizza size crust toppings sauces = Raise TypeError)
       /\ (is_str size && has_len toppings && has_len sauces = true
           <-> exists r, order_pizza size crust toppings sauces = Ret r)).
  { intros (H1 & H2 & H3). exact (conj H1 (conj H2 (conj H3 Hret))). }
  destruct (is_str size) eqn:Hs.
  - destruct size as [| | | s | |]; try discriminate Hs.
    destruct (has_len_spec toppings) as [Ht1 Ht0], (has_len_spec sauces) as [Hs1 Hs0].
    destruct (has_len toppings) eqn:Ht; [destruct (Ht1 eq_refl) as [n Hn] |].
    + destruct (has_len sauces) eqn:Hsa; [destruct (Hs1 eq_refl) as [m Hm] |].
      * destruct (Hret s n m eq_refl Hn Hm) as (p & Hr & _). rewrite Hr. simpl.
        repeat split; try done; try (intros [? ?]; done); eauto.
      * assert (Hr : order_pizza (JStr s) crust toppings sauces = Raise TypeError).
        { unfold order_pizza. simpl. rewrite Hn, (Hs0 eq_refl). reflexivity. }
        rewrite Hr. simpl. repeat split; try done; try (intros [? ?]; done).
    + assert (Hr : order_pizza (JStr s) crust toppings sauces = Raise TypeError).
      { unfold order_pizza. simpl. rewrite (Ht0 eq_refl). reflexivity. }
      rewrite Hr. simpl. repeat split; try done; try (intros [? ?]; done).
  - rewrite (order_pizza_not_str _ _ _ _ Hs). simpl.
    repeat split; try done; try (intros [? ?]; done).
Qed.

(** Whatever [order_pizza] returns has a price of the menu. *)
Lemma order_pizza_menu_price (size crust toppings sauces : json) (r : result) :
  order_pizza size crust toppings sauces = Ret r -> menu_price (o_price (r_order r)).
Proof.
  intros Hr.
  destruct size as [| | | s | |]; try discriminate Hr.
  destruct (len toppings) as [n |] eqn:Hn;
    [| unfold order_pizza in Hr; simpl in Hr; rewrite Hn in Hr; discriminate].
  destruct (len sauces) as [m |] eqn:Hm;
    [| unfold order_pizza in Hr; simpl in Hr; rewrite Hn, Hm in Hr; discriminate].
  rewrite (order_pizza_unfold s crust _ _ n m Hn Hm) in Hr. injection Hr as <-. simpl.
  exists (4 * Spec.base_price s + 3 * Z.of_nat n + 2 * Z.of_nat m)%Z. split.
  - rewrite round_raw_price, raw_price_exact, base_price_lookup.
    rewrite (Qmake_Qdiv (4 * Spec.base_price s + 3 * Z.of_nat n + 2 * Z.of_nat m) 4).
    rewrite !inject_Z_plus, !inject_Z_mult. field.
  - assert (5 <= Spec.base_price s)%Z; [| lia].
    unfold Spec.base_price. repeat case_match; lia.
Qed.

(** X2. Every price that [order_pizza] returns is a whole number of
    quarters and at least 5: two decimals always suffice, and no order is
    cheaper than a small pizza without toppings. *)
Theorem order_pizza_price_is_menu_price (size crust toppings sauces : json) (r : result) :
  order_pizza size crust toppings sauces = Ret r ->
  menu_price (o_price (r_order r))
  /\ 5 <= o_price (r_order r)
  /\ PyFloat.round (o_price (r_order r)) 2 == o_price (r_order r).
Proof.
  intros Hr. pose proof (order_pizza_menu_price _ _ _ _ _ Hr) as Hm.
  split; [exact Hm |]. destruct Hm as (k & Hk & Hle). split.
  - rewrite Hk, (Qmake_Qdiv k 4). apply Qle_shift_div_l; [reflexivity |].
    change (5 * inject_Z (Zpos 4)) with (inject_Z 20). now rewrite <- Zle_Qle.
  - apply (round_exact _ (25 * k)). rewrite Hk, (Qmake_Qdiv k 4), inject_Z_mult. field.
Qed.

Lemma order_pizza_price_is_menu_price_witness :
  exists r, order_pizza (JStr "XL") JNull (JStr "ham") (JObj ∅) = Ret r
            /\ 5 <= o_price (r_order r).
Proof.
  destruct (order_pizza (JStr "XL") JNull (JStr "ham") (JObj ∅)) as [r | e] eqn:Hr;
    [| vm_compute in Hr; discriminate].
  exists r. split; [reflexivity |].
  exact (proj1 (proj2 (order_pizza_price_is_menu_price _ _ _ _ _ Hr))).
Defined.

(** X3. One more topping, wherever it is put, costs exactly 0.75 more, and
    one more sauce exactly 0.5 more. *)
Theorem one_more_item (size crust : string) (t1 t2 s1 s2 : list string) (x : string) :
  exists r rt rs,
    order_pizza_typed size crust (t1 ++ t2) (s1 ++ s2) = Ret r
    /\ order_pizza_typed size crust (t1 ++ x :: t2) (s1 ++ s2) = Ret rt
    /\ order_pizza_typed size crust (t1 ++ t2) (s1 ++ x :: s2) = Ret rs
    /\ o_price (r_order rt) == o_price (r_order r) + (3 # 4)
    /\ o_price (r_order rs) == o_price (r_order r) + (1 # 2).
Proof.
  do 3 eexists. repeat (split; [apply order_pizza_typed_unfold |]). simpl.
  rewrite !round_raw_price, !raw_price_exact, !length_app. simpl length.
  rewrite !Nat2Z.inj_add, !Nat2Z.inj_succ, !inject_Z_plus.
  unfold Z.succ. rewrite !inject_Z_plus. split; ring.
Qed.

(** ** The call with the decoded arguments *)

Lemma order_pizza_cases (size crust toppings sauces : json) :
  (is_str size = false
   /\ order_pizza size crust toppings sauces = Raise AttributeError)
  \/ (is_str size = true /\ has_len toppings && has_len sauces = false
      /\ order_pizza size crust toppings sauces = Raise TypeError)
  \/ (is_str size = true /\ has_len toppings = true /\ has_len sauces = true
      /\ exists p, order_pizza size crust toppings sauces
                   = Ret (Result "success" (Order size crust toppings sauces p)
                            "20 minutes")).
Proof.
  destruct (is_str size) eqn:Hs; [| left; split; [done | by apply order_pizza_not_str]].
  right. destruct size as [| | | s | |]; try discriminate Hs.
  destruct (has_len_spec toppings) as [Ht1 Ht0], (has_len_spec sauces) as [Hs1 Hs0].
  destruct (has_len toppings) eqn:Ht.
  - destruct (Ht1 eq_refl) as [n Hn]. destruct (has_len sauces) eqn:Hsa.
    + destruct (Hs1 eq_refl) as [m Hm]. right. repeat split.
      eexists. by apply order_pizza_unfold.
    + left. repeat split. unfold order_pizza. simpl. by rewrite Hn, (Hs0 eq_refl).
  - left. repeat split. unfold order_pizza. simpl. by rewrite (Ht0 eq_refl).
Qed.

Lemma parameters_set :
  list_to_set parameters = ({[ "size"; "crust"; "toppings"; "sauces" ]} : gset string).
Proof. unfold parameters. simpl. set_solver. Qed.

(** The binding of line 149 on an object with the four keys present. *)
Lemma call_order_pizza_bound (kwargs : gmap string json) (size crust toppings sauces : json) :
  dom kwargs ⊆ list_to_set parameters ->
  kwargs !! "size" = Some size -> kwargs !! "crust" = Some crust ->
  kwargs !! "toppings" = Some toppings -> kwargs !! "sauces" = Some sauces ->
  call_order_pizza (JObj kwargs) = order_pizza size crust toppings sauces.
Proof.
  intros Hdom H1 H2 H3 H4. unfold call_order_pizza, argument.
  rewrite (bool_decide_eq_true_2 _ Hdom), H1, H2, H3, H4. reflexivity.
Qed.

Lemma well_formed_returns (args : json) :
  well_formed args = true ->
  exists kwargs size crust toppings sauces p,
    args = JObj kwargs
    /\ kwargs !! "size" = Some size /\ kwargs !! "crust" = Some crust
    /\ kwargs !! "toppings" = Some toppings /\ kwargs !! "sauces" = Some sauces
    /\ call_order_pizza args
       = Ret (Result "success" (Order size crust toppings sauces p) "20 minutes")
    /\ menu_price p.
Proof.
  intros Hwf. destruct args as [| | | | | kwargs]; try discriminate Hwf.
  unfold well_formed in Hwf. rewrite !andb_true_iff, bool_decide_eq_true in Hwf.
  destruct Hwf as (((Hdom & Hsize) & Htop) & Hsau).
  assert (Hcrust : is_Some (kwargs !! "crust")).
  { apply elem_of_dom. rewrite Hdom, parameters_set. set_solver. }
  destruct Hcrust as [crust Hcrust].
  destruct (kwargs !! "size") as [size |] eqn:H1; [| discriminate].
  destruct (kwargs !! "toppings") as [toppings |] eqn:H3; [| discriminate].
  destruct (kwargs !! "sauces") as [sauces |] eqn:H4; [| discriminate].
  simpl in *.
  assert (Hsub : dom kwargs ⊆ list_to_set parameters) by (by rewrite Hdom).
  rewrite (call_order_pizza_bound _ _ _ _ _ Hsub H1 Hcrust H3 H4).
  destruct (order_pizza_cases size crust toppings sauces)
    as [(E & _) | [(_ & E & _) | (_ & _ & _ & p & Hp)]].
  + congruence.
  + rewrite Htop, Hsau in E. discriminate.
  + exists kwargs, size, crust, toppings, sauces, p. rewrite Hp.
    repeat split; try done. apply (order_pizza_menu_price _ _ _ _ _ Hp).
Qed.

Lemma ill_formed_raises (args : json) :
  well_formed args = false ->
  call_order_pizza args = Raise TypeError \/ call_order_pizza args = Raise AttributeError.
Proof.
  intros Hwf. destruct args as [| | | | | kwargs]; try (by left).
  unfold call_order_pizza. case_bool_decide as Hsub; [| by left].
  unfold argument.
  destruct (kwargs !! "size") as [size |] eqn:H1; [| by left].
  destruct (kwargs !! "crust") as [crust |] eqn:H2; [| by left].
  destruct (kwargs !! "toppings") as [toppings |] eqn:H3; [| by left].
  destruct (kwargs !! "sauces") as [sauces |] eqn:H4; [| by left].
  simpl.
  destruct (order_pizza_cases size crust toppings sauces)
    as [(_ & E) | [(_ & _ & E) | (Hs & Ht & Hsa & _)]]; [by right | by left |].
  exfalso. unfold well_formed in Hwf. rewrite H1, H3, H4 in Hwf.
  cbn [from_option] in Hwf. rewrite Hs, Ht, Hsa, !andb_true_r in Hwf.
  apply bool_decide_eq_false in Hwf. apply Hwf.
  apply set_eq. intros k. split; [apply Hsub |].
  rewrite parameters_set, !elem_of_union, !elem_of_singleton, elem_of_dom.
  intros [[[-> | ->] | ->] | ->]; eauto.
Qed.

(** X4. The call of [order_pizza] with the decoded arguments returns
    exactly for the well-formed ones: an object with the four keys size,
    crust, toppings and sauces and no other, a string for the size and
    values with a length for the toppings and the sauces; the order then
    holds the four values of the object and a price of the menu.  On any
    other decoded value, an object or not, the call raises [TypeError] or
    [AttributeError]. *)
Theorem call_order_pizza_outcome (args : json) :
  (well_formed args = true ->
   exists kwargs size crust toppings sauces p,
     args = JObj kwargs
     /\ kwargs !! "size" = Some size /\ kwargs !! "crust" = Some crust
     /\ kwargs !! "toppings" = Some toppings /\ kwargs !! "sauces" = Some sauces
     /\ call_order_pizza args
        = Ret (Result "success" (Order size crust toppings sauces p) "20 minutes")
     /\ menu_price p)
  /\ (well_formed args = false ->
      call_order_pizza args = Raise TypeError
      \/ call_order_pizza args = Raise AttributeError).
Proof. split; [apply well_formed_returns | apply ill_formed_raises]. Qed.

Example numbers_as_toppings_are_well_formed :
  well_formed (JObj {[ "size" := JStr "small"; "crust" := JStr "pan";
                       "toppings" := JArr [JNum 1; JNum 2]; "sauces" := JArr [] ]}) = true
  /\ call_order_pizza (JObj {[ "size" := JStr "small"; "crust" := JStr "pan";
                               "toppings" := JArr [JNum 1; JNum 2]; "sauces" := JArr [] ]})
     = Ret (Result "success" numbered "20 minutes")
  /\ well_formed (JArr []) = false
  /\ well_formed (JObj {[ "size" := JNum 12; "crust" := JStr "pan";
                          "toppings" := JArr []; "sauces" := JArr [] ]}) = false.
Proof. repeat split; vm_compute; reflexivity. Qed.

(** ** White space *)

Lemma lstrip_trimmed (s : string) : trimmed_left (PyStr.lstrip s).
Proof.
  induction s as [| c s IH]; simpl; [exact I |].
  destruct (PyStr.isspace c) eqn:E; [exact IH | exact E].
Qed.

Lemma lstrip_id (s : string) : trimmed_left s -> PyStr.lstrip s = s.
Proof. destruct s as [| c s]; simpl; [done |]. now intros ->. Qed.

Lemma rstrip_trimmed_left (s : string) : trimmed_left s -> trimmed_left (PyStr.rstrip s).
Proof.
  destruct s as [| c s]; simpl; [done |]. intros E.
  destruct (PyStr.rstrip s); simpl; [now rewrite E | exact E].
Qed.

Lemma rstrip_cons (c : ascii) (s : string) :
  PyStr.rstrip (String c s)
  = match PyStr.rstrip s with
    | EmptyString => if PyStr.isspace c then EmptyString else String c EmptyString
    | r => String c r
    end.
Proof. reflexivity. Qed.

Lemma rstrip_idempotent (s : string) : PyStr.rstrip (PyStr.rstrip s) = PyStr.rstrip s.
Proof.
  induction s as [| c s IH]; [reflexivity |].
  rewrite rstrip_cons.
  destruct (PyStr.rstrip s) as [| d r] eqn:E.
  - destruct (PyStr.isspace c) eqn:Ec; [reflexivity |].
    rewrite rstrip_cons. simpl. now rewrite Ec.
  - rewrite rstrip_cons, IH. reflexivity.
Qed.

(** Stripping twice is stripping once. *)
Lemma strip_idempotent (s : string) : PyStr.strip (PyStr.strip s) = PyStr.strip s.
Proof.
  unfold PyStr.strip.
  rewrite (lstrip_id (PyStr.rstrip (PyStr.lstrip s))).
  - apply rstrip_idempotent.
  - apply rstrip_trimmed_left, lstrip_trimmed.
Qed.

Lemma truthy_nonempty (s : string) : PyStr.truthy s = true <-> s <> "".
Proof. destruct s; simpl; split; congruence. Qed.

(** ** More on the session *)

Section SessionCoverage.

Context {json_module : JsonModule}.

Ltac step_cases Hstep :=
  unfold step in Hstep;
  match type of Hstep with
  | context [pc ?st] => destruct (pc st) eqn:?
  end;
  match type of Hstep with
  | context [match ?e with Line _ => _ | _ => _ end] => destruct e
  | _ => idtac
  end;
  try discriminate Hstep; injection Hstep as <-.

Ltac unfold_turns :=
  unfold user_turn, model_turn, handle_text, handle_function_call, another, session_end;
  repeat case_match; simpl.

(** A step of the loop keeps the name and only appends to the transcript,
    and what it appends for the user and the assistant is not empty. *)
Lemma loop_step_transcript (st st' : state) (e : event) :
  in_loop (pc st) = true ->
  step st e = Some st' ->
  name st' = name st
  /\ messages st `prefix_of` messages st'
  /\ (Forall spoken (messages st) -> Forall spoken (messages st')).
Proof.
  intros Hloop Hstep. step_cases Hstep; try discriminate Hloop; unfold_turns;
    (split; [reflexivity |]);
    (split; [repeat apply prefix_app_r; reflexivity |]);
    intros Hsp; rewrite ?Forall_app; repeat split; try assumption;
    repeat constructor.
  all: try (apply truthy_nonempty; assumption).
  all: try apply strip_idempotent.
Qed.

(** *** A well-formed action call *)

(** X5. When the arguments of the action call decode to well-formed
    arguments, the step records one order: the order of [order_pizza] on
    the values of the object is appended to the orders, its price is
    added to the total and announced after "Order placed" with the ETA
    "20 minutes".  Then, if [json.dumps] returns, its text is appended to
    the transcript as a function message (after the text of the answer, if
    any) and the loop goes to the "order another?" prompt; if [json.dumps]
    raises, nothing catches the exception and the session ends there, with
    the order recorded and announced, the transcript without the function
    message, and no further step. *)
Theorem well_formed_call_places_order
    (st : state) (msg : response) (fc : function_call) (args : json) :
  pc st = AwaitingModelResponse ->
  msg_function_call msg = Some fc ->
  json_loads (fc_arguments fc) = Ret args ->
  well_formed args = true ->
  exists st' r,
    step st (Reply msg) = Some st'
    /\ call_order_pizza args = Ret r
    /\ placed st (Reply msg) = Some (r_order r)
    /\ orders st' = orders st ++ [r_order r]
    /\ total st' == total st + o_price (r_order r)
    /\ stdout st'
       = stdout (handle_text msg st)
         ++ [OutOrderPlaced "20 minutes"; OutPrice (o_price (r_order r))]
    /\ match json_dumps r with
       | Ret content =>
           pc st' = AskingAnother
           /\ messages st'
              = messages (handle_text msg st) ++ [Function "order_pizza" content]
       | Raise e =>
           pc st' = Crashed e
           /\ messages st' = messages (handle_text msg st)
           /\ (forall e', step st' e' = None)
       end.
Proof.
  intros Hpc Hfc Hargs Hwf.
  destruct (well_formed_returns _ Hwf) as (kw & a & b & c & d & p & _ & _ & _ & _ & _ & Hr & _).
  destruct (handle_text_quiet msg st) as (Ho & Ht & _).
  eexists _, _. split.
  { unfold step. rewrite Hpc. unfold model_turn. rewrite Hfc.
    rewrite (function_call_placed _ _ _ _ Hargs Hr). reflexivity. }
  split; [exact Hr |]. split.
  { unfold placed. rewrite Hpc, Hfc. simpl. by rewrite Hargs, Hr. }
  destruct (json_dumps _) as [content | e]; simpl; rewrite Ho, Ht, <- app_assoc;
    repeat split; apply add_exact.
Qed.

(** *** The transcript and the name *)

Lemma initial_named : named initial.
Proof. by repeat split. Qed.

Lemma greet_named (api : py response) (st : state) :
  raw_name_input st <> "" -> PyStr.strip (raw_name_input st) = raw_name_input st ->
  name (greet api st) <> ""
  /\ PyStr.strip (name (greet api st)) = name (greet api st)
  /\ messages (greet api st) = [System system_prompt]
  /\ pc (greet api st) = AwaitingUserInput.
Proof.
  intros Hraw Htrim. unfold greet, extract_name.
  repeat case_match; simpl in *; simplify_eq; repeat split;
    try assumption; try apply strip_idempotent;
    try (apply truthy_nonempty; assumption).
Qed.

Lemma step_named (st st' : state) (e : event) :
  named st -> step st e = Some st' -> named st'.
Proof.
  intros (Hsp & Hraw & Hname) Hstep.
  destruct (in_loop (pc st)) eqn:Hloop.
  - destruct (loop_step_transcript _ _ _ Hloop Hstep) as (Hn & Hpre & Hsp').
    destruct (Hname eq_refl) as (Hne & Htrim & rest & Hrest).
    split; [by apply Hsp' |]. split.
    + intros Hpc'. exfalso.
      assert (Hb : before_loop (pc st') = true) by (by rewrite Hpc').
      destruct (before_loop (pc st)) eqn:Hpre0; [by destruct (pc st) |].
      destruct (step_leaves_prologue _ _ _ Hpre0 Hstep). congruence.
    + intros _. rewrite Hn. repeat split; try done.
      destruct Hpre as [l ->]. rewrite Hrest. by eexists.
  - step_cases Hstep; try discriminate Hloop.
    + unfold ask_name. case_match eqn:Ht; simpl.
      * repeat split; try done. by apply truthy_nonempty. apply strip_idempotent.
      * by repeat split.
    + by repeat split.
    + destruct (Hraw eq_refl) as [H1 H2].
      destruct (greet_named (Ret r) st H1 H2) as (? & ? & Hm & Hp).
      unfold named. rewrite Hm, Hp. repeat split; try done; [| by eexists].
      by repeat constructor.
    + destruct (Hraw eq_refl) as [H1 H2].
      destruct (greet_named (Raise (APIError e)) st H1 H2) as (? & ? & Hm & Hp).
      unfold named. rewrite Hm, Hp. repeat split; try done; [| by eexists].
      by repeat constructor.
Qed.

Lemma run_named (st st' : state) (es : list event) :
  named st -> run st es = Some st' -> named st'.
Proof.
  revert st. induction es as [| e es IH]; intros st Hinv Hrun; simpl in Hrun.
  - by simplify_eq.
  - destruct (step st e) as [st1 |] eqn:Hstep; [| done].
    exact (IH st1 (step_named _ _ _ Hinv Hstep) Hrun).
Qed.

Lemma run_prefix (st st' : state) (es : list event) :
  before_loop (pc st) = false ->
  run st es = Some st' ->
  messages st `prefix_of` messages st' /\ name st' = name st.
Proof.
  revert st. induction es as [| e es IH]; intros st Hpre Hrun; simpl in Hrun.
  - by simplify_eq.
  - destruct (step st e) as [st1 |] eqn:Hstep; [| done]. simpl in Hrun.
    destruct (step_leaves_prologue _ _ _ Hpre Hstep) as [Hloop Hpre1].
    destruct (loop_step_transcript _ _ _ Hloop Hstep) as (Hn & Hp & _).
    destruct (IH st1 Hpre1 Hrun) as [Hp' Hn'].
    split; [by etrans | congruence].
Qed.

(** X6. In the loop the transcript starts with the system prompt, and
    from then on the session only appends to it: the transcript at any
    point of the loop is a prefix of the transcript at any later point, so
    that what was said before a pizza is still in the request for the
    next one. *)
Theorem transcript_only_grows :
  (forall es st,
      run initial es = Some st -> in_loop (pc st) = true ->
      exists rest, messages st = System system_prompt :: rest)
  /\ (forall es1 es2 st1 st2,
        run initial es1 = Some st1 -> in_loop (pc st1) = true ->
        run st1 es2 = Some st2 ->
        messages st1 `prefix_of` messages st2).
Proof.
  split.
  - intros es st Hrun Hloop.
    destruct (run_named _ _ _ initial_named Hrun) as (_ & _ & Hn).
    by destruct (Hn Hloop) as (_ & _ & Hrest).
  - intros es1 es2 st1 st2 _ Hloop Hrun.
    apply (run_prefix st1 st2 es2); [by destruct (pc st1) | done].
Qed.

(** X7. No empty message of the user or of the assistant ever enters the
    transcript, and every message of the user is the typed line without
    the white space around it. *)
Theorem transcript_has_no_empty_message (es : list event) (st : state) :
  run initial es = Some st ->
  forall m, m ∈ messages st ->
    match m with
    | User content => content <> "" /\ PyStr.strip content = content
    | Assistant content => content <> ""
    | System content => content = system_prompt
    | Function name _ => name = "order_pizza"
    end.
Proof.
  intros Hrun. revert es st Hrun.
  cut (forall st es st',
         Forall (fun m => match m with
                          | System c => c = system_prompt
                          | Function n _ => n = "order_pizza"
                          | _ => True
                          end) (messages st) ->
         run st es = Some st' ->
         Forall (fun m => match m with
                          | System c => c = system_prompt
                          | Function n _ => n = "order_pizza"
                          | _ => True
                          end) (messages st')).
  { intros Hsys es st Hrun m Hin.
    destruct (run_named _ _ _ initial_named Hrun) as (Hsp & _).
    pose proof (Hsys initial es st (Forall_nil_2 _) Hrun) as Hs.
    rewrite Forall_forall in Hsp, Hs. specialize (Hsp m Hin). specialize (Hs m Hin).
    by destruct m. }
  intros st es. revert st. induction es as [| e es IH]; intros st st' Hf Hrun; simpl in Hrun.
  - by simplify_eq.
  - destruct (step st e) as [st1 |] eqn:Hstep; [| done]. simpl in Hrun.
    apply (IH st1 st'); [| done]. clear IH Hrun.
    step_cases Hstep; unfold ask_name, greet; unfold_turns;
      rewrite ?Forall_app; repeat split; try assumption; by repeat constructor.
Qed.

(** X8. In the loop the name that the prompts show is never empty and has
    no white space around it, whatever the name extraction answered. *)
Theorem name_is_never_empty (es : list event) (st : state) :
  run initial es = Some st ->
  in_loop (pc st) = true ->
  name st <> "" /\ PyStr.strip (name st) = name st.
Proof.
  intros Hrun Hloop.
  destruct (run_named _ _ _ initial_named Hrun) as (_ & _ & Hn).
  by destruct (Hn Hloop) as (? & ? & _).
Qed.

(** X9. A first line that is empty after trimming ends the program at
    once: "No name entered" is printed, no request is sent, no order loop
    starts and nothing can follow. *)
Theorem empty_name_exits (s : string) :
  PyStr.strip s = "" ->
  (exists st, run initial [Line s] = Some st
              /\ pc st = ExitedNoName
              /\ stdout st = [OutWelcome; OutNoName]
              /\ messages st = [] /\ orders st = [])
  /\ (forall es st, run initial (Line s :: es) = Some st -> es = []).
Proof.
  intros Hs.
  assert (Hstep : step initial (Line s)
                  = Some (State ExitedNoName "" "" [] [] 0 [OutWelcome; OutNoName])).
  { unfold step, ask_name. simpl. rewrite Hs. reflexivity. }
  split.
  - eexists. rewrite run_one, Hstep. by repeat split.
  - intros es st Hrun. destruct es as [| e es]; [done |].
    change (run initial (Line s :: e :: es))
      with (step initial (Line s) ≫= fun st1 => run st1 (e :: es)) in Hrun.
    rewrite Hstep in Hrun. simpl in Hrun. unfold step in Hrun. simpl in Hrun. done.
Qed.

(** X10. When the input ends at a prompt, [input] raises [EOFError], which
    nothing catches: the session stops there with the orders and the total
    it had, and no summary is printed for them. *)
Theorem end_of_input_crashes (es : list event) (st : state) :
  run initial es = Some st ->
  prompting (pc st) = true ->
  exists st',
    step st Eof = Some st'
    /\ pc st' = Crashed EOFError
    /\ orders st' = orders st /\ total st' = total st
    /\ stdout st' = stdout st
    /\ (OutSummaryHeader ∉ stdout st')
    /\ (forall e, step st' e = None).
Proof.
  intros Hrun Hp. exists (goto (Crashed EOFError) st). split.
  { unfold step. by destruct (pc st). }
  repeat split. simpl. apply (blocked_no_summary _ _ Hrun). by destruct (pc st).
Qed.

(** *** The summary *)

Lemma print_orders_billed (os : list order) (i : nat) :
  (print_orders i os).2 = None ->
  billed (print_orders i os).1 = o_price <$> os.
Proof.
  revert i. induction os as [| o os IH]; intros i; simpl; [done |].
  destruct (joinable (o_toppings o)); simpl; [| done].
  destruct (joinable (o_sauces o)); simpl; [| done].
  specialize (IH (S i)). destruct (print_orders (S i) os) as [out e]. simpl in *.
  intros He. by rewrite (IH He).
Qed.



Lemma step_finished (st st' : state) (e : event) :
  step st e = Some st' -> pc st' = Finished ->
  pc st = AskingAnother /\ st' = session_end st.
Proof.
  intros Hstep Hfin. step_cases Hstep.
  all: try (unfold ask_name, greet, user_turn, model_turn, handle_text,
            handle_function_call in Hfin;
            repeat case_match; simpl in Hfin; discriminate).
  unfold another in *. case_match; [discriminate | done].
Qed.

Lemma run_last (st st' : state) (es : list event) :
  run st es = Some st' -> es <> [] ->
  exists es0 e st0, es = es0 ++ [e] /\ run st es0 = Some st0 /\ step st0 e = Some st'.
Proof.
  intros Hrun Hne. destruct (exists_last Hne) as (es0 & e & ->).
  rewrite run_app in Hrun. destruct (run st es0) as [st0 |] eqn:H0; [| done].
  exists es0, e, st0. split; [reflexivity |]. split; [exact H0 |].
  rewrite <- (run_one st0 e). exact Hrun.
Qed.

(** X12. When a session ends normally, the bill adds up: the console ends
    with the summary, whose item prices are the prices of the recorded
    orders, in order, and the same prices that were announced when the
    orders were placed, and the total it prints is their exact sum. *)
Theorem bill_adds_up (es : list event) (st : state) :
  run initial es = Some st ->
  pc st = Finished ->
  exists before items,
    stdout st = before ++ OutSummaryHeader :: items ++ [OutTotal (total st); OutThanks]
    /\ billed items = o_price <$> orders st
    /\ billed items = Spec.announced before
    /\ total st == foldr Qplus 0 (billed items).
Proof.
  intros Hrun Hfin.
  destruct (run_last _ _ _ Hrun) as (es0 & e & st0 & -> & Hrun0 & Hstep).
  { intros ->. simpl in Hrun. by simplify_eq. }
  destruct (step_finished _ _ _ Hstep Hfin) as [Hpc0 ->].
  destruct initial_fresh as (Hf & Hok).
  destruct (run_invariant _ _ _ Hf Hok Hrun0) as (_ & Ht & Ho & Ha).
  simpl in Ho, Ha. unfold Spec.totals_ok in Ht. unfold session_end in *.
  pose proof (print_orders_billed (orders st0) 1) as Hb.
  destruct (print_orders 1 (orders st0)) as [out [ex |]]; [discriminate Hfin |].
  cbn [fst snd] in Hb. specialize (Hb eq_refl).
  exists (stdout st0), out. simpl. rewrite <- !app_assoc. simpl. repeat split.
  - exact Hb.
  - by rewrite Hb, Ha, Ho.
  - rewrite Hb, Ht. unfold Spec.sum_prices.
    clear. induction (orders st0) as [| o os IH]; simpl; [reflexivity | by rewrite IH].
Qed.

(** *** The total *)

Lemma call_order_pizza_menu_price (args : json) (r : result) :
  call_order_pizza args = Ret r -> menu_price (o_price (r_order r)).
Proof.
  unfold call_order_pizza, argument. intros Hr.
  destruct args as [| | | | | kw]; try discriminate Hr.
  case_bool_decide; [| discriminate Hr].
  repeat (case_match; try discriminate Hr). simpl in Hr.
  by apply order_pizza_menu_price in Hr.
Qed.

Lemma placed_menu_price (st : state) (e : event) (o : order) :
  placed st e = Some o -> menu_price (o_price o).
Proof.
  unfold placed. intros H.
  destruct (pc st); try discriminate H. destruct e as [| | msg |]; try discriminate H.
  destruct (msg_function_call msg) as [fc |]; [| discriminate H]. simpl in H.
  destruct (json_loads (fc_arguments fc)) as [args |]; [| discriminate H].
  destruct (call_order_pizza args) as [r |] eqn:Hr; [| discriminate H].
  injection H as <-. by apply call_order_pizza_menu_price in Hr.
Qed.

Lemma placed_along_menu_prices (st : state) (es : list event) :
  Forall (fun o => menu_price (o_price o)) (placed_along st es).
Proof.
  revert st. induction es as [| e es IH]; intros st; simpl; [by constructor |].
  destruct (step st e) as [st1 |]; [| by constructor].
  apply Forall_app. split; [| apply IH].
  destruct (placed st e) as [o |] eqn:Hp; simpl; [| by constructor].
  repeat constructor. by apply placed_menu_price in Hp.
Qed.

Lemma menu_price_at_least_5 (p : Q) : menu_price p -> 5 <= p.
Proof.
  intros (k & Hk & Hle). rewrite Hk, (Qmake_Qdiv k 4).
  apply Qle_shift_div_l; [reflexivity |].
  change (5 * inject_Z (Zpos 4)) with (inject_Z 20). now rewrite <- Zle_Qle.
Qed.

(** X13. Every recorded order has a price of the menu, so the total is at
    least 5 for each order placed: a session never records a free or a
    negative order, whatever the model sends. *)
Theorem total_at_least_five_each (es : list event) (st : state) :
  run initial es = Some st ->
  Forall (fun o => menu_price (o_price o)) (orders st)
  /\ 5 * inject_Z (Z.of_nat (length (orders st))) <= total st.
Proof.
  intros Hrun.
  destruct initial_fresh as (Hf & Hok).
  destruct (run_invariant _ _ _ Hf Hok Hrun) as (_ & Ht & Ho & _).
  simpl in Ho.
  assert (Hm : Forall (fun o => menu_price (o_price o)) (orders st))
    by (rewrite Ho; apply placed_along_menu_prices).
  split; [exact Hm |]. unfold Spec.totals_ok in Ht. rewrite Ht.
  clear - Hm. unfold Spec.sum_prices.
  induction Hm as [| o os Ho _ IH]; cbn [foldr length].
  - change (5 * 0 <= 0). lra.
  - apply menu_price_at_least_5 in Ho.
    rewrite Nat2Z.inj_succ. unfold Z.succ. rewrite inject_Z_plus.
    change (inject_Z 1) with 1. lra.
Qed.

End SessionCoverage.

(** ** Sessions with the concrete environment, continued *)

Lemma transcript_has_no_empty_message_witness :
  exists st, run initial Demo.two_pizzas = Some st
             /\ (User "a large thin one" ∈ messages st)
             /\ PyStr.strip "a large thin one" = "a large thin one".
Proof.
  destruct (run initial Demo.two_pizzas)
    as [st |] eqn:Hrun; [| vm_compute in Hrun; discriminate].
  exists st. split; [reflexivity |].
  assert (Hin : User "a large thin one" ∈ messages st).
  { vm_compute in Hrun. injection Hrun as <-. simpl. set_solver. }
  split; [exact Hin |].
  exact (proj2 (transcript_has_no_empty_message
                  Demo.two_pizzas st Hrun _ Hin)).
Defined.

Lemma name_is_never_empty_witness :
  name Demo.answering <> "" /\ PyStr.strip (name Demo.answering) = name Demo.answering.
Proof.
  apply (name_is_never_empty Demo.asked_size);
    reflexivity.
Defined.

Lemma empty_name_exits_witness :
  exists st, run initial [Line "   "] = Some st
             /\ pc st = ExitedNoName.
Proof.
  destruct (empty_name_exits "   " eq_refl)
    as [(st & Hrun & Hpc & _) _].
  by exists st.
Defined.

Lemma end_of_input_crashes_witness :
  exists st', step Demo.served Eof = Some st'
              /\ pc st' = Crashed EOFError
              /\ length (orders st') = 1%nat
              /\ (OutSummaryHeader ∉ stdout st').
Proof.
  destruct (end_of_input_crashes
              Demo.one_pizza Demo.served eq_refl eq_refl)
    as (st' & Hstep & Hpc & Ho & _ & _ & Hs & _).
  exists st'. rewrite Ho. by repeat split.
Defined.

Lemma bill_adds_up_witness :
  exists st before items,
    run initial Demo.two_pizzas = Some st
    /\ stdout st = before ++ OutSummaryHeader :: items ++ [OutTotal 16; OutThanks]
    /\ billed items = [11; 5].
Proof.
  destruct (run initial Demo.two_pizzas) as [st |] eqn:Hrun;
    [| vm_compute in Hrun; discriminate].
  assert (Hpc : pc st = Finished) by (vm_compute in Hrun; by injection Hrun as <-).
  assert (Ho : o_price <$> orders st = [11; 5])
    by (vm_compute in Hrun; by injection Hrun as <-).
  assert (Ht : total st = 16) by (vm_compute in Hrun; by injection Hrun as <-).
  destruct (bill_adds_up Demo.two_pizzas st Hrun Hpc) as (before & items & Hout & Hb & _).
  exists st, before, items. rewrite <- Ht, <- Ho. by repeat split.
Defined.

Lemma total_at_least_five_each_witness :
  exists st, run initial Demo.two_pizzas = Some st
             /\ 5 * inject_Z (Z.of_nat (length (orders st))) <= total st.
Proof.
  destruct (run initial Demo.two_pizzas) as [st |] eqn:Hrun;
    [| vm_compute in Hrun; discriminate].
  exists st. split; [reflexivity |].
  exact (proj2 (total_at_least_five_each Demo.two_pizzas st Hrun)).
Defined.

(** A well-formed call with numbers for toppings is recorded and priced,
    and the summary stops at it. *)
Example numbered_order_breaks_the_summary :
  exists st,
    run (json_module := Odd.json_module) initial Odd.session = Some st
    /\ orders st = [numbered]
    /\ pc st = Crashed TypeError
    /\ stdout st
       = [ OutWelcome; OutHi "Ada"; OutOrderPlaced "20 minutes"; OutPrice (13 # 2);
           OutSummaryHeader; OutPizza 1 (JStr "small") (JStr "pan") ].
Proof. eexists. split; [vm_compute; reflexivity |]. by repeat split. Qed.

Lemma well_formed_call_places_order_witness :
  exists st',
    step Demo.negotiating (Reply (Demo.call Demo.small_plain)) = Some st'
    /\ pc st' = AskingAnother
    /\ length (orders st') = 1%nat.
Proof.
  assert (Hpc0 : pc Demo.negotiating = AwaitingModelResponse) by reflexivity.
  assert (Hargs : json_loads Demo.small_plain
                  = Ret (JObj {[ "size" := JStr "small"; "crust" := JStr "pan";
                                  "toppings" := strs []; "sauces" := strs [] ]}))
    by reflexivity.
  destruct (well_formed_call_places_order Demo.negotiating (Demo.call Demo.small_plain)
              (FunctionCall "order_pizza" Demo.small_plain) _ Hpc0 eq_refl Hargs eq_refl)
    as (st' & r & Hstep & _ & _ & Ho & _ & _ & Hm).
  exists st'. rewrite Ho. split; [exact Hstep |]. split; [exact (proj1 Hm) |].
  by rewrite length_app.
Defined.

(** ** The limits of the decoder and of the encoder *)


(** When [json.dumps] gives up on the result, the order is already
    recorded and announced, and the session ends without a summary. *)
Example undumped_result_ends_the_session :
  exists st',
    step (json_module := Limits.deep_result) Demo.negotiating
         (Reply (Demo.call Demo.small_plain)) = Some st'
    /\ pc st' = Crashed RecursionError
    /\ o_price <$> orders st' = [5]
    /\ total st' = 5
    /\ messages st' = messages Demo.negotiating
    /\ stdout st' = [OutWelcome; OutHi "Ada"; OutOrderPlaced "20 minutes"; OutPrice 5].
Proof. eexists. split; [vm_compute; reflexivity |]. by repeat split. Qed.
